(** * Federated Averaging: client and server computations

    A shallow embedding of
    [tensorflow_federated/python/learning/federated_averaging.py]:
    the client computation [ClientFedAvg], the helper
    [_create_optimizer_and_server_state], [server_init] and
    [server_update_model], together with the properties of the
    natural-language specification that concern them.

    Conventions of the embedding.
    - A tensor is a shape and the row-major list of its elements.  The
      element type is a [DType]; all theorems that do not depend on
      arithmetic laws hold for every dtype, in particular for IEEE
      binary32 ([float32], built on the Standard Library's [spec_float]).
    - A nested structure (what [tensorflow.python.util.nest] traverses)
      is a tree whose leaves carry tensors.
    - TensorFlow variables live in an explicit store.  A function that
      the source wraps in [tf.contrib.eager.function]/[defun] is a state
      transformer that either returns a value or raises; an exception
      leaves the store as it was when it was raised. *)

From Stdlib Require Import ZArith List Bool Lia SpecFloat Ring.
Import ListNotations.

Set Implicit Arguments.

(** ** Errors and the result type *)

Inductive error : Type :=
| StructureMismatch   (* nest: the structures do not match *)
| ShapeMismatch       (* tf.assign / elementwise op on incompatible shapes *)
| IndexOutOfRange.    (* [tf.shape(t)[0]] on a scalar *)

Inductive result (A : Type) : Type :=
| Ok (a : A)
| Err (e : error).
Arguments Ok {A} a.
Arguments Err {A} e.

Definition rbind {A B} (r : result A) (k : A -> result B) : result B :=
  match r with
  | Ok a => k a
  | Err e => Err e
  end.

Notation "x <-! c ;; k" := (rbind c (fun x => k))
  (at level 61, c at next level, right associativity).

(** State-and-exception monad: a raised error keeps the store. *)
Definition M (S A : Type) : Type := S -> result A * S.

Definition ret {S A} (a : A) : M S A := fun s => (Ok a, s).

Definition raise {S A} (e : error) : M S A := fun s => (Err e, s).

Definition bind {S A B} (c : M S A) (k : A -> M S B) : M S B :=
  fun s =>
    match c s with
    | (Ok a, s') => k a s'
    | (Err e, s') => (Err e, s')
    end.

Definition get {S} : M S S := fun s => (Ok s, s).

Definition put {S} (s : S) : M S unit := fun _ => (Ok tt, s).

(** Lifts a pure, fallible computation; on failure nothing is written. *)
Definition lift {S A} (r : result A) : M S A := fun s => (r, s).

Notation "x <- c ;; k" := (bind c (fun x => k))
  (at level 61, c at next level, right associativity).
Notation "c ;; k" := (bind c (fun _ => k))
  (at level 61, right associativity).

(** ** Element types *)

Record DType : Type := {
  carrier :> Type;
  dzero : carrier;
  done : carrier;
  dadd : carrier -> carrier -> carrier;
  dsub : carrier -> carrier -> carrier;
  dmul : carrier -> carrier -> carrier;
  ddiv : carrier -> carrier -> carrier;
  dopp : carrier -> carrier;
  is_finite : carrier -> bool      (* tf.is_finite on one element *)
}.

(** IEEE 754 binary32 ([tf.float32]): 24 bits of precision, [emax = 128],
    round to nearest even. *)
Module F32.
Definition prec : Z := 24.
Definition emax : Z := 128.
Definition t : Type := spec_float.
Definition zero : t := S754_zero false.
Definition one : t := S754_finite false 8388608 (-23).
Definition add : t -> t -> t := SFadd prec emax.
Definition sub : t -> t -> t := SFsub prec emax.
Definition mul : t -> t -> t := SFmul prec emax.
Definition div : t -> t -> t := SFdiv prec emax.
Definition opp : t -> t := SFopp.
Definition finite (x : t) : bool :=
  match x with
  | S754_zero _ | S754_finite _ _ _ => true
  | S754_infinity _ | S754_nan => false
  end.
(** [tf.cast(n, tf.float32)] for an integer [n]. *)
Definition of_Z (n : Z) : t := binary_normalize prec emax n 0 false.
(** The float nearest to [m * 2^e]. *)
Definition of_bin (m e : Z) : t := binary_normalize prec emax m e false.
Definition valid (x : t) : bool := valid_binary prec emax x.
End F32.

Definition float32 : DType :=
  {| carrier := F32.t; dzero := F32.zero; done := F32.one;
     dadd := F32.add; dsub := F32.sub; dmul := F32.mul; ddiv := F32.div;
     dopp := F32.opp;
     is_finite := F32.finite |}.


(** 32-bit two's complement wrap-around ([tf.int32] arithmetic). *)
Definition wrap_int32 (z : Z) : Z :=
  ((z + 2147483648) mod 4294967296 - 2147483648)%Z.

(** ** Tensors *)

Record Tensor (A : Type) : Type := { shape : list nat; data : list A }.

Section Tensors.
Context {D : DType}.

Definition shape_eqb (s1 s2 : list nat) : bool :=
  if list_eq_dec Nat.eq_dec s1 s2 then true else false.

(** [tf.zeros_like] *)
Definition zeros_like (t : Tensor D) : Tensor D :=
  {| shape := shape t; data := map (fun _ => dzero D) (data t) |}.

(** [c * t] for a Python scalar [c] *)
Definition scalar_mul (c : D) (t : Tensor D) : Tensor D :=
  {| shape := shape t; data := map (dmul D c) (data t) |}.

(** [t / c] for a Python scalar [c] *)
Definition scalar_div (t : Tensor D) (c : D) : Tensor D :=
  {| shape := shape t; data := map (fun x => ddiv D x c) (data t) |}.

Definition zip_with (f : D -> D -> D) (xs ys : list D) : list D :=
  map (fun p => f (fst p) (snd p)) (combine xs ys).

(** Elementwise binary operation on tensors of one shape.  The operands
    met in this file are a variable and a value of the variable's
    shape; broadcasting is not modelled and reported as an error. *)
Definition elementwise (f : D -> D -> D) (a b : Tensor D) : result (Tensor D) :=
  if shape_eqb (shape a) (shape b)
  then Ok {| shape := shape a; data := zip_with f (data a) (data b) |}
  else Err ShapeMismatch.

(** [tf.subtract], [tf.add] *)
Definition tf_subtract : Tensor D -> Tensor D -> result (Tensor D) :=
  elementwise (dsub D).
Definition tf_add : Tensor D -> Tensor D -> result (Tensor D) :=
  elementwise (dadd D).

(** [tf.assign(ref, value)]: the value must have the variable's shape;
    the result is the variable's new content. *)
Definition tf_assign (ref value : Tensor D) : result (Tensor D) :=
  if shape_eqb (shape ref) (shape value) then Ok value else Err ShapeMismatch.

(** [tf.reduce_all(tf.is_finite(t))] *)
Definition all_finite (t : Tensor D) : bool := forallb (is_finite D) (data t).

(** Every element is the dtype's zero. *)
Definition is_zero_tensor (t : Tensor D) : Prop :=
  Forall (fun x => x = dzero D) (data t).

(** [tf.shape(t)[0]] *)
Definition leading_dim (t : Tensor D) : result nat :=
  match shape t with
  | n :: _ => Ok n
  | [] => Err IndexOutOfRange
  end.
End Tensors.

(** ** Nested structures ([tensorflow.python.util.nest]) *)

Section ListOps.
Variables X Y R V : Type.

(** Two lists have the same length and related elements. *)
Variable p : X -> Y -> bool.
Fixpoint all2 (la : list X) (lb : list Y) : bool :=
  match la, lb with
  | [], [] => true
  | x :: xs, y :: ys => p x y && all2 xs ys
  | _, _ => false
  end.

(** [nest.map_structure] on two flat lists: [f] on corresponding
    elements, left to right; lists of different lengths do not match. *)
Variable f : X -> Y -> result R.
Fixpoint map_list2 (la : list X) (lb : list Y) : result (list R) :=
  match la, lb with
  | [], [] => Ok []
  | x :: xs, y :: ys =>
      r <-! f x y ;; rs <-! map_list2 xs ys ;; Ok (r :: rs)
  | _, _ => Err StructureMismatch
  end.

(** Runs [step] over a list, threading a supply of values. *)
Variable step : X -> list V -> result (X * list V).
Fixpoint thread_list (l : list X) (vals : list V) : result (list X * list V) :=
  match l with
  | [] => Ok ([], vals)
  | x :: xs =>
      q <-! step x vals ;;
      qs <-! thread_list xs (snd q) ;;
      Ok (fst q :: fst qs, snd qs)
  end.
End ListOps.

#[local] Unset Elimination Schemes.
Inductive nest (A : Type) : Type :=
| Leaf (a : A)
| Seq (children : list (nest A)).
#[local] Set Elimination Schemes.
Arguments Leaf {A} a.
Arguments Seq {A} children.

Section Nest.
Context {A B C : Type}.

(** [nest.flatten] *)
Fixpoint flatten (n : nest A) : list A :=
  match n with
  | Leaf a => [a]
  | Seq l => flat_map flatten l
  end.

(** [nest.map_structure] with one structure *)
Fixpoint map_structure (f : A -> B) (n : nest A) : nest B :=
  match n with
  | Leaf a => Leaf (f a)
  | Seq l => Seq (map (map_structure f) l)
  end.

(** The test behind [nest.assert_same_structure]: same nesting. *)
Fixpoint same_structure (a : nest A) (b : nest B) : bool :=
  match a, b with
  | Leaf _, Leaf _ => true
  | Seq la, Seq lb => all2 same_structure la lb
  | _, _ => false
  end.

(** Applies [f] to corresponding leaves, left to right, and packs the
    results in the structure of the arguments. *)
Fixpoint map_leaves2 (f : A -> B -> result C) (a : nest A) (b : nest B)
  : result (nest C) :=
  match a, b with
  | Leaf x, Leaf y => r <-! f x y ;; Ok (Leaf r)
  | Seq la, Seq lb => rs <-! map_list2 (map_leaves2 f) la lb ;; Ok (Seq rs)
  | _, _ => Err StructureMismatch
  end.

(** [nest.map_structure] with two structures: the structures are
    compared first, then [f] is applied leaf by leaf. *)
Definition map_structure2 (f : A -> B -> result C) (a : nest A) (b : nest B)
  : result (nest C) :=
  if same_structure a b then map_leaves2 f a b else Err StructureMismatch.

(** Writes new contents into the leaves of a structure of variables, in
    flattening order, each through [write]; returns the structure and
    the values left over.  Too few values is a structure mismatch. *)
Fixpoint assign_leaves (write : A -> B -> result A)
  (vars : nest A) (vals : list B) : result (nest A * list B) :=
  match vars with
  | Leaf v =>
      match vals with
      | x :: rest => r <-! write v x ;; Ok (Leaf r, rest)
      | [] => Err StructureMismatch
      end
  | Seq l =>
      q <-! thread_list (assign_leaves write) l vals ;;
      Ok (Seq (fst q), snd q)
  end.
End Nest.

(** The nesting alone. *)
Definition structure_of {A} (n : nest A) : nest unit :=
  map_structure (fun _ => tt) n.

(** The shapes of the leaves, in the structure of the argument. *)
Definition nest_shape {D : DType} (n : nest (Tensor D)) : nest (list nat) :=
  map_structure (@shape D) n.

(** Maps a fallible function over a list, left to right. *)
Fixpoint map_result {A B} (f : A -> result B) (l : list A) : result (list B) :=
  match l with
  | [] => Ok []
  | x :: xs => r <-! f x ;; rs <-! map_result f xs ;; Ok (r :: rs)
  end.

(** [nest.assert_same_structure] *)
Definition assert_same_structure {S A B} (a : nest A) (b : nest B) : M S unit :=
  if same_structure a b then ret tt else raise StructureMismatch.

(** ** Model weights, server state, optimizers *)

(** Modelled from the spec: [model_utils.ModelWeights] is not part of the
    file.  An ordered, structured collection of two disjoint groups,
    the trainable and the non-trainable weights. *)
Record ModelWeights (A : Type) : Type := {
  trainable : nest (Tensor A);
  non_trainable : nest (Tensor A)
}.

(** The state of the server carried between rounds. *)
Record ServerState (A : Type) : Type := {
  model : ModelWeights A;
  optimizer_state : list (Tensor A)   (* in the order of optimizer.variables() *)
}.

(** The contract of a [tf.train.Optimizer] as the server code uses it.
    The optimizer's state is the content of [optimizer.variables()]:
    the variables its constructor makes, and those the first
    [apply_gradients] adds for the variables it is given.  [update]
    is the update rule: from the optimizer variables and the
    (gradient, variable) pairs to the new contents of the variables
    and of the optimizer variables. *)
Record Optimizer (A : Type) : Type := {
  initial_variables : list (Tensor A);
  create_slots : list (Tensor A) -> list (Tensor A);
  update : list (Tensor A) -> list (Tensor A * Tensor A) ->
           result (list (Tensor A) * list (Tensor A))
}.

(** The variables one server call constructs: the model's weights and
    the optimizer's variables.  [model.weights], [optimizer.variables()]
    and the [ServerState] of variables the helper returns all denote
    these cells. *)
Record ServerVars (A : Type) : Type := {
  model_weights : ModelWeights A;
  optimizer_created : bool;          (* apply_gradients has run once *)
  optimizer_variables : list (Tensor A)
}.

Section Server.
Context {D : DType}.

(** The variables after [model_fn()] and [optimizer_fn()]. *)
Definition new_vars (model : ModelWeights D) (optimizer : Optimizer D)
  : ServerVars D :=
  {| model_weights := model;
     optimizer_created := false;
     optimizer_variables := initial_variables optimizer |}.

(** Assigns [vals], in order, to the variables at the leaves. *)
Definition assign_flat (vars : nest (Tensor D)) (vals : list (Tensor D))
  : result (nest (Tensor D)) :=
  q <-! assign_leaves tf_assign vars vals ;;
  match snd q with
  | [] => Ok (fst q)
  | _ :: _ => Err StructureMismatch
  end.

(** [optimizer.apply_gradients(grads_and_vars)], where the variables of
    the pairs are the model's trainable variables.  The first call
    creates the optimizer's remaining variables. *)
Definition apply_gradients (optimizer : Optimizer D)
  (grads_and_vars : list (Tensor D * Tensor D)) : M (ServerVars D) unit :=
  fun st =>
    let vars :=
      if optimizer_created st then optimizer_variables st
      else optimizer_variables st ++ create_slots optimizer (map snd grads_and_vars) in
    match (r <-! update optimizer vars grads_and_vars ;;
           tr <-! assign_flat (trainable (model_weights st)) (fst r) ;;
           ov <-! map_list2 tf_assign vars (snd r) ;;
           Ok (tr, ov)) with
    | Ok (tr, ov) =>
        (Ok tt,
         {| model_weights :=
              {| trainable := tr;
                 non_trainable := non_trainable (model_weights st) |};
            optimizer_created := true;
            optimizer_variables := ov |})
    | Err e => (Err e, st)
    end.

(** The pairs [apply_delta] hands to the optimizer. *)
Definition grads_and_vars_of (delta vars : nest (Tensor D))
  : result (list (Tensor D * Tensor D)) :=
  map_list2 (fun x v => Ok (scalar_mul (dopp D (done D)) x, v))
    (flatten delta) (flatten vars).

(** [apply_delta] of [_create_optimizer_and_server_state] *)
Definition apply_delta (optimizer : Optimizer D) (delta : nest (Tensor D))
  : M (ServerVars D) unit :=
  st <- get ;;
  assert_same_structure delta (trainable (model_weights st)) ;;
  grads_and_vars <- lift (grads_and_vars_of delta (trainable (model_weights st))) ;;
  apply_gradients optimizer grads_and_vars.

(** Reads the [ServerState] of variables. *)
Definition read_server_vars : M (ServerVars D) (ServerState D) :=
  st <- get ;;
  ret {| model := model_weights st;
         optimizer_state := optimizer_variables st |}.

(** [_create_optimizer_and_server_state(model, optimizer)], on the
    variables of [model] and [optimizer].  It returns [apply_delta];
    the [ServerState] of variables it also returns is read with
    [read_server_vars] and written with [assign_server_vars]. *)
Definition _create_optimizer_and_server_state (optimizer : Optimizer D)
  : M (ServerVars D) (nest (Tensor D) -> M (ServerVars D) unit) :=
  st <- get ;;
  let weights_delta := map_structure zeros_like (trainable (model_weights st)) in
  apply_delta optimizer weights_delta ;;
  ret (apply_delta optimizer).

(** [nest.map_structure(tf.assign, server_vars, server_state)] *)
Definition assign_server_vars (server_state : ServerState D)
  : M (ServerVars D) unit :=
  st <- get ;;
  tr <- lift (map_structure2 tf_assign (trainable (model_weights st))
                (trainable (model server_state))) ;;
  nt <- lift (map_structure2 tf_assign (non_trainable (model_weights st))
                (non_trainable (model server_state))) ;;
  ov <- lift (map_list2 tf_assign (optimizer_variables st)
                (optimizer_state server_state)) ;;
  put {| model_weights := {| trainable := tr; non_trainable := nt |};
         optimizer_created := optimizer_created st;
         optimizer_variables := ov |}.

Definition server_init (model_fn : unit -> ModelWeights D)
  (optimizer_fn : unit -> Optimizer D) : result (ServerState D) :=
  let model := model_fn tt in
  let optimizer := optimizer_fn tt in
  fst ((_create_optimizer_and_server_state optimizer ;;
        read_server_vars) (new_vars model optimizer)).

Definition update_model_inner (server_state : ServerState D)
  (apply_delta_fn : nest (Tensor D) -> M (ServerVars D) unit)
  (weights_delta : nest (Tensor D)) : M (ServerVars D) (ServerState D) :=
  assign_server_vars server_state ;;
  apply_delta_fn weights_delta ;;
  read_server_vars.

Definition server_update_model (server_state : ServerState D)
  (weights_delta : nest (Tensor D))
  (model_fn : unit -> ModelWeights D) (optimizer_fn : unit -> Optimizer D)
  : result (ServerState D) :=
  let model := model_fn tt in
  let optimizer := optimizer_fn tt in
  fst ((apply_delta_fn <- _create_optimizer_and_server_state optimizer ;;
        update_model_inner server_state apply_delta_fn weights_delta)
         (new_vars model optimizer)).

(** [-1.0 * x] for every leaf [x] of the delta, in flattening order. *)
Definition negated (delta : nest (Tensor D)) : list (Tensor D) :=
  map (scalar_mul (dopp D (done D))) (flatten delta).

(** The optimizer variables an [apply_gradients] call works on. *)
Definition variables_for (optimizer : Optimizer D)
  (grads_and_vars : list (Tensor D * Tensor D)) (st : ServerVars D)
  : list (Tensor D) :=
  if optimizer_created st then optimizer_variables st
  else optimizer_variables st ++ create_slots optimizer (map snd grads_and_vars).

(** The variables once the model and all optimizer variables exist,
    with the values the factories give them. *)
Definition constructed_vars (model : ModelWeights D) (optimizer : Optimizer D)
  : ServerVars D :=
  {| model_weights := model;
     optimizer_created := true;
     optimizer_variables :=
       initial_variables optimizer
         ++ create_slots optimizer (flatten (trainable model)) |}.

(** The variables holding exactly the values of a server state. *)
Definition rehydrated (server_state : ServerState D) : ServerVars D :=
  {| model_weights := model server_state;
     optimizer_created := true;
     optimizer_variables := optimizer_state server_state |}.

(** The pipeline without the dry run: construct the variables, copy
    the server state into them, apply the delta once. *)
Definition server_update_simple (server_state : ServerState D)
  (weights_delta : nest (Tensor D))
  (model_fn : unit -> ModelWeights D) (optimizer_fn : unit -> Optimizer D)
  : result (ServerState D) :=
  let model := model_fn tt in
  let optimizer := optimizer_fn tt in
  fst ((assign_server_vars server_state ;;
        apply_delta optimizer weights_delta ;;
        read_server_vars) (constructed_vars model optimizer)).

(** What gradient descent makes of one variable [w] and one leaf [x]
    of the delta: [w - lr * (-1.0 * x)]. *)
Definition sgd_leaf (lr : D) (w x : Tensor D) : result (Tensor D) :=
  tf_subtract w (scalar_mul lr (scalar_mul (dopp D (done D)) x)).

(** All elements of all leaves. *)
Definition elements (n : nest (Tensor D)) : list D :=
  flat_map (@data D) (flatten n).

(** On [w] and [x] the gradient-descent step with learning rate one,
    [w - 1 * (-1 * x)], is the sum [w + x]. *)
Definition sgd_law (w x : D) : Prop :=
  dsub D w (dmul D (done D) (dmul D (dopp D (done D)) x)) = dadd D w x.

(** The pairs of the all-zero delta for the variables [vars]. *)
Definition zero_pairs (vars : nest (Tensor D)) : list (Tensor D * Tensor D) :=
  combine (negated (map_structure zeros_like vars)) (flatten vars).

(** A step of the update rule on the all-zero delta, from the optimizer
    variables [ovars], succeeds, leaves the variables [vars] as they
    are, and leaves optimizer variables [ovars'] of the same shapes. *)
Definition zero_step (optimizer : Optimizer D) (vars : nest (Tensor D))
  (ovars ovars' : list (Tensor D)) : Prop :=
  update optimizer ovars (zero_pairs vars) = Ok (flatten vars, ovars')
  /\ map (@shape D) ovars' = map (@shape D) ovars.

(** *** Optimizer strategies *)

(** [tf.train.GradientDescentOptimizer(lr)]: [var -= lr * grad];
    no optimizer variables. *)
Definition gradient_descent (lr : D) : Optimizer D :=
  {| initial_variables := [];
     create_slots := fun _ => [];
     update := fun s gv =>
       vals <-! map_result (fun p => tf_subtract (snd p) (scalar_mul lr (fst p))) gv ;;
       Ok (vals, s) |}.

(** [tf.train.MomentumOptimizer(lr, mu)]: one accumulator per variable,
    created as zeros; [accum = mu * accum + grad; var -= lr * accum]. *)
Definition momentum (lr mu : D) : Optimizer D :=
  {| initial_variables := [];
     create_slots := map zeros_like;
     update := fun s gv =>
       r <-! map_list2
               (fun accum p =>
                  accum' <-! tf_add (scalar_mul mu accum) (fst p) ;;
                  var' <-! tf_subtract (snd p) (scalar_mul lr accum') ;;
                  Ok (var', accum'))
               s gv ;;
       Ok (map fst r, map snd r) |}.

(** [tf.train.ProximalGradientDescentOptimizer(lr,
    l2_regularization_strength=l2)], without L1 term:
    [var = (var - lr * grad) / (1 + l2 * lr)]; no optimizer variables. *)
Definition proximal_gradient_descent (lr l2 : D) : Optimizer D :=
  {| initial_variables := [];
     create_slots := fun _ => [];
     update := fun s gv =>
       vals <-! map_result
                  (fun p =>
                     prox_v <-! tf_subtract (snd p) (scalar_mul lr (fst p)) ;;
                     Ok (scalar_div prox_v
                           (dadd D (done D) (dmul D l2 lr))))
                  gv ;;
       Ok (vals, s) |}.
End Server.

(** ** The client computation *)

(** Modelled from the spec: [tensor_utils.zero_all_if_any_non_finite] is
    not part of the file.  It scans every leaf for NaN or infinite
    values; if any is found every leaf is replaced by an all-zero tensor
    of the same shape and the flag is set, otherwise the structure is
    returned as it is.  The flag is an integer tensor, which the caller
    compares with [0]: [0] for "all finite", [1] for "some non-finite". *)
Definition zero_all_if_any_non_finite {D : DType} (structure : nest (Tensor D))
  : nest (Tensor D) * Z :=
  if forallb all_finite (flatten structure)
  then (structure, 0%Z)
  else (map_structure zeros_like structure, 1%Z).

(** [dataset.reduce(initial_state, reduce_func)] on a finite dataset. *)
Fixpoint dataset_reduce {S St Batch} (reduce_func : St -> Batch -> M S St)
  (dataset : list Batch) (state : St) : M S St :=
  match dataset with
  | [] => ret state
  | batch :: rest =>
      state' <- reduce_func state batch ;;
      dataset_reduce reduce_func rest state'
  end.

Section ClientTypes.
Variables A Batch LocalVars Metrics : Type.

(** Modelled from the spec: what [train_on_batch] returns, at least the
    predictions, whose leading dimension is the batch size. *)
Record BatchOutput : Type := { predictions : Tensor A }.

(** The variables of a model: its weights and its local variables
    (running statistics behind [aggregated_outputs]). *)
Record ModelVars : Type := {
  weights : ModelWeights A;
  local_variables : LocalVars
}.

(** Modelled from the spec: the contract of an enhanced
    [learning.TrainableModel] ([model_utils.enhance] is not part of the
    file).  [train_on_batch] mutates the model's variables and returns
    the batch output; [aggregated_outputs] is a snapshot of the running
    statistics. *)
Record TrainableModel : Type := {
  train_on_batch : Batch -> ModelVars -> BatchOutput * ModelVars;
  aggregated_outputs : ModelVars -> Metrics
}.

(** The variables a [ClientFedAvg] instance works on: those of its
    model, and the [tf.int32] variable [_num_examples]. *)
Record ClientVars : Type := {
  model_vars : ModelVars;
  _num_examples : Z
}.

(** The attributes of a [ClientFedAvg] instance. *)
Record ClientFedAvg : Type := {
  _model : TrainableModel;
  _client_weight_fn : Metrics -> M ClientVars F32.t
}.

(** The stats of a client output: the ordered dictionary built by
    [tensor_utils.to_odict] in [__call__]. *)
Record ClientStats : Type := {
  num_examples : Z;
  has_non_finite_delta : Z;
  workaround : F32.t
}.

(** Modelled from the spec: [optimizer_utils.ClientOutput] is not part of
    the file.  The weights delta, the scalar weight, the aggregated
    model outputs and the stats, in the order [__call__] passes them. *)
Record ClientOutput : Type := {
  weights_delta : nest (Tensor A);
  weight : F32.t;
  aggregated_model_outputs : Metrics;
  stats : ClientStats
}.

End ClientTypes.

Section Client.
Context {D : DType}.
Variables Batch LocalVars Metrics : Type.

(** [ClientFedAvg.__init__]: the instance, and its variables once
    initialised; [model_variables] are the variables of [model]. *)
Definition __init__ (model : TrainableModel D Batch LocalVars Metrics)
  (model_variables : ModelVars D LocalVars)
  (client_weight_fn : option (Metrics -> F32.t))
  : ClientFedAvg D Batch LocalVars Metrics * ClientVars D LocalVars :=
  ({| _model := model;
      _client_weight_fn :=
        match client_weight_fn with
        | Some f => fun outputs => ret (f outputs)
        | None => fun _ => st <- get ;; ret (F32.of_Z (_num_examples st))
        end |},
   {| model_vars := model_variables; _num_examples := 0 |}).

(** [nest.map_structure(tf.assign, model.weights, initial_weights)] *)
Definition assign_weights (initial_weights : ModelWeights D)
  : M (ClientVars D LocalVars) unit :=
  st <- get ;;
  tr <- lift (map_structure2 tf_assign (trainable (weights (model_vars st)))
                (trainable initial_weights)) ;;
  nt <- lift (map_structure2 tf_assign (non_trainable (weights (model_vars st)))
                (non_trainable initial_weights)) ;;
  put {| model_vars :=
           {| weights := {| trainable := tr; non_trainable := nt |};
              local_variables := local_variables (model_vars st) |};
         _num_examples := _num_examples st |}.

Definition reduce_fn (self : ClientFedAvg D Batch LocalVars Metrics)
  (dummy_state : F32.t) (batch : Batch) : M (ClientVars D LocalVars) F32.t :=
  st <- get ;;
  let (output, mv) := train_on_batch (_model self) batch (model_vars st) in
  put {| model_vars := mv; _num_examples := _num_examples st |} ;;
  n <- lift (leading_dim (predictions output)) ;;
  put {| model_vars := mv;
         _num_examples := wrap_int32 (_num_examples st + Z.of_nat n) |} ;;
  ret dummy_state.

(** [__call__] up to the call of the client weight function: the local
    training, [weights_delta], the aggregated outputs and the weight. *)
Definition local_update (self : ClientFedAvg D Batch LocalVars Metrics)
  (dataset : list Batch) (initial_weights : ModelWeights D)
  : M (ClientVars D LocalVars) (F32.t * nest (Tensor D) * Metrics * F32.t) :=
  assign_weights initial_weights ;;
  dummy_output <- dataset_reduce (reduce_fn self) dataset F32.zero ;;
  st <- get ;;
  weights_delta <- lift (map_structure2 tf_subtract
                           (trainable (weights (model_vars st)))
                           (trainable initial_weights)) ;;
  let aggregated_outputs := aggregated_outputs (_model self) (model_vars st) in
  weights_delta_weight <- _client_weight_fn self aggregated_outputs ;;
  ret (dummy_output, weights_delta, aggregated_outputs, weights_delta_weight).

(** [ClientFedAvg.__call__] *)
Definition __call__ (self : ClientFedAvg D Batch LocalVars Metrics)
  (dataset : list Batch) (initial_weights : ModelWeights D)
  : M (ClientVars D LocalVars) (ClientOutput D Metrics) :=
  r <- local_update self dataset initial_weights ;;
  let '(dummy_output, weights_delta, aggregated_outputs, weights_delta_weight) := r in
  let (weights_delta, has_non_finite_delta) :=
    zero_all_if_any_non_finite weights_delta in
  let weights_delta_weight :=
    if Z.eqb has_non_finite_delta 0 then weights_delta_weight else F32.zero in
  st <- get ;;
  ret {| weights_delta := weights_delta;
         weight := weights_delta_weight;
         aggregated_model_outputs := aggregated_outputs;
         stats :=
           {| num_examples := _num_examples st;
              has_non_finite_delta := has_non_finite_delta;
              workaround := dummy_output |} |}.

(** The model's variables with the weights replaced. *)
Definition set_weights (initial_weights : ModelWeights D)
  (mv : ModelVars D LocalVars) : ModelVars D LocalVars :=
  {| weights := initial_weights; local_variables := local_variables mv |}.

(** What [__call__] returns from the results of [local_update] and the
    final value of the counter. *)
Definition client_output (r : F32.t * nest (Tensor D) * Metrics * F32.t)
  (counter : Z) : ClientOutput D Metrics :=
  let '(dummy_output, weights_delta, aggregated_outputs, weights_delta_weight) := r in
  let (weights_delta, has_non_finite_delta) :=
    zero_all_if_any_non_finite weights_delta in
  {| weights_delta := weights_delta;
     weight :=
       if Z.eqb has_non_finite_delta 0 then weights_delta_weight else F32.zero;
     aggregated_model_outputs := aggregated_outputs;
     stats :=
       {| num_examples := counter;
          has_non_finite_delta := has_non_finite_delta;
          workaround := dummy_output |} |}.

(** The model's variables after training on the batches in order. *)
Definition train_all (model : TrainableModel D Batch LocalVars Metrics)
  (dataset : list Batch) (mv : ModelVars D LocalVars) : ModelVars D LocalVars :=
  fold_left (fun mv batch => snd (train_on_batch model batch mv)) dataset mv.

(** The size of a batch: the leading dimension of its predictions. *)
Definition batch_size (output : BatchOutput D) : nat :=
  hd 0%nat (shape (predictions output)).

(** The sizes of the batches, as they are trained on in order from [mv]. *)
Fixpoint batch_sizes (model : TrainableModel D Batch LocalVars Metrics)
  (dataset : list Batch) (mv : ModelVars D LocalVars) : list nat :=
  match dataset with
  | [] => []
  | batch :: rest =>
      let (output, mv') := train_on_batch model batch mv in
      batch_size output :: batch_sizes model rest mv'
  end.

(** The sum of a list of sizes. *)
Definition total (sizes : list nat) : Z :=
  fold_right (fun n acc => (Z.of_nat n + acc)%Z) 0%Z sizes.
End Client.

(** The model that also records, in its local variables, the batches
    [train_on_batch] is called with, in the order of the calls. *)
Definition logging {D : DType} {Batch LocalVars Metrics : Type}
  (model : TrainableModel D Batch LocalVars Metrics)
  : TrainableModel D Batch (LocalVars * list Batch) Metrics :=
  {| train_on_batch := fun batch mv =>
       let (output, mv') :=
         train_on_batch model batch
           {| weights := weights mv;
              local_variables := fst (local_variables mv) |} in
       (output,
        {| weights := weights mv';
           local_variables :=
             (local_variables mv', snd (local_variables mv) ++ [batch]) |});
     aggregated_outputs := fun mv =>
       aggregated_outputs model
         {| weights := weights mv;
            local_variables := fst (local_variables mv) |} |}.

(** The leafwise difference of a tensor with itself. *)
Definition self_difference {D : DType} (t : Tensor D) : Tensor D :=
  {| shape := shape t; data := map (fun x => dsub D x x) (data t) |}.

(** The counter after adding the batch sizes one by one, from [n]. *)
Definition count_examples (sizes : list nat) (n : Z) : Z :=
  fold_left (fun n size => wrap_int32 (n + Z.of_nat size)) sizes n.

(** The range of a [tf.int32]. *)
Definition int32_range (z : Z) : Prop := (-2147483648 <= z < 2147483648)%Z.

(** Some element of some leaf is NaN or infinite. *)
Definition has_non_finite {D : DType} (n : nest (Tensor D)) : Prop :=
  exists t x, In t (flatten n) /\ In x (data t) /\ is_finite D x = false.

(** In the dtype, a finite [x - x] is zero. *)
Definition sub_self_law (D : DType) : Prop :=
  forall x : D, is_finite D (dsub D x x) = true -> dsub D x x = dzero D.

(** ** Concrete values for the scenarios *)

Module Scenario.
(** A scalar tensor. *)
Definition scalar {D : DType} (x : D) : Tensor D := {| shape := []; data := [x] |}.

(** The weights of a model with one scalar trainable weight. *)
Definition scalar_model {D : DType} (x : D) : ModelWeights D :=
  {| trainable := Seq [Leaf (scalar x)]; non_trainable := Seq [] |}.

(** A delta for such a model. *)
Definition scalar_delta {D : DType} (x : D) : nest (Tensor D) :=
  Seq [Leaf (scalar x)].

(** binary32 constants: the floats nearest to the decimal values. *)
Definition f_0 : float32 := F32.zero.
Definition f_1 : float32 := F32.one.
Definition f_0_9 : float32 := F32.of_bin 15099494 (-24).
Definition f_minus_0_1 : float32 := F32.of_bin (-13421773) (-27).
Definition f_0_5 : float32 := F32.of_bin 1 (-1).
Definition f_0_25 : float32 := F32.of_bin 1 (-2).
Definition f_2 : float32 := F32.of_Z 2.
Definition f_3 : float32 := F32.of_Z 3.
Definition f_4 : float32 := F32.of_Z 4.
Definition f_7 : float32 := F32.of_Z 7.



(** A model whose training step replaces the weights by [step weights];
    a batch is given by its size, the predictions have that leading
    dimension; no local variables, no metrics. *)
Definition toy_model {D : DType} (step : ModelWeights D -> ModelWeights D)
  : TrainableModel D nat unit unit :=
  {| train_on_batch := fun (batch : nat) mv =>
       ({| predictions := {| shape := [batch]; data := repeat (dzero D) batch |} |},
        {| weights := step (weights mv);
           local_variables := local_variables mv |});
     aggregated_outputs := fun _ => tt |}.

(** A training step that adds [1.0] to every trainable element. *)
Definition bump (w : ModelWeights float32) : ModelWeights float32 :=
  {| trainable :=
       map_structure
         (fun t : Tensor float32 =>
            {| shape := shape t;
               data := map (fun x : float32 => dadd float32 x f_1) (data t) |})
         (trainable w);
     non_trainable := non_trainable w |}.

(** The variables of a toy model with one scalar weight. *)
Definition toy_vars {D : DType} (x : D) : ModelVars D unit :=
  {| weights := scalar_model x; local_variables := tt |}.

(** A server state with one scalar weight and no optimizer state. *)
Definition stateless (x : float32) : ServerState float32 :=
  {| model := scalar_model x; optimizer_state := [] |}.

(** Momentum whose accumulators start at the variables' values
    instead of zero: the same update rule, other initial values. *)
Definition warm_momentum (lr mu : float32) : Optimizer float32 :=
  {| initial_variables := [];
     create_slots := fun vars => vars;
     update := update (momentum lr mu) |}.

Definition f_1_5 : float32 := F32.of_bin 3 (-1).
Definition f_minus_0_5 : float32 := F32.of_bin (-1) (-1).

(** A server state with one scalar weight and one accumulator. *)
Definition with_accumulator (x a : float32) : ServerState float32 :=
  {| model := scalar_model x; optimizer_state := [scalar a] |}.
End Scenario.

(** ** Further notions for the server and the client *)

(** The nesting and shapes of a server state: of the trainable and the
    non-trainable weights, and of the optimizer state. *)
Definition state_shapes {D : DType} (s : ServerState D)
  : nest (list nat) * nest (list nat) * list (list nat) :=
  (nest_shape (trainable (model s)),
   nest_shape (non_trainable (model s)),
   map (@shape D) (optimizer_state s)).

(** The nesting and shapes of the variables the factories construct. *)
Definition constructed_shapes {D : DType} (model : ModelWeights D)
  (optimizer : Optimizer D)
  : nest (list nat) * nest (list nat) * list (list nat) :=
  (nest_shape (trainable model),
   nest_shape (non_trainable model),
   map (@shape D) (optimizer_variables (constructed_vars model optimizer))).

(** One application of the delta to the values of a server state: what
    [update_model_inner] does once its variables hold the state. *)
Definition server_step {D : DType} (optimizer : Optimizer D)
  (server_state : ServerState D) (weights_delta : nest (Tensor D))
  : result (ServerState D) :=
  fst ((apply_delta optimizer weights_delta ;; read_server_vars)
         (rehydrated server_state)).

(** [ClientFedAvg.variables]: the variables of the instance itself, read
    as their current values. *)
Definition variables {D : DType} {Batch LocalVars Metrics : Type}
  (self : ClientFedAvg D Batch LocalVars Metrics) (st : ClientVars D LocalVars)
  : list Z :=
  [_num_examples st].

(** The shapes of the predictions, as the batches are trained on in
    order from [mv]. *)
Fixpoint prediction_shapes {D : DType} {Batch LocalVars Metrics : Type}
  (model : TrainableModel D Batch LocalVars Metrics) (dataset : list Batch)
  (mv : ModelVars D LocalVars) : list (list nat) :=
  match dataset with
  | [] => []
  | batch :: rest =>
      let (output, mv') := train_on_batch model batch mv in
      shape (predictions output) :: prediction_shapes model rest mv'
  end.

(** A model whose predictions are one scalar per batch, without a batch
    dimension; training leaves the variables as they are. *)
Definition scalar_output_model {D : DType} : TrainableModel D nat unit unit :=
  {| train_on_batch := fun (batch : nat) mv =>
       ({| predictions := Scenario.scalar (dzero D) |}, mv);
     aggregated_outputs := fun _ => tt |}.

(** * Properties *)

(** ** Nested structures *)

Lemma nest_induction (A : Type) (P : nest A -> Prop)
  (HLeaf : forall a, P (Leaf a))
  (HSeq : forall l, Forall P l -> P (Seq l)) :
  forall n, P n.
Proof.
  fix IH 1. intros [a | l].
  - apply HLeaf.
  - apply HSeq. induction l as [| n l IHl]; constructor.
    + apply IH.
    + exact IHl.
Qed.

Lemma shape_eqb_true (s1 s2 : list nat) : shape_eqb s1 s2 = true <-> s1 = s2.
Proof.
  unfold shape_eqb. destruct (list_eq_dec Nat.eq_dec s1 s2); split; congruence.
Qed.

Lemma shape_eqb_refl (s : list nat) : shape_eqb s s = true.
Proof. apply shape_eqb_true. reflexivity. Qed.

Lemma rbind_Ok {A B} (r : result A) (k : A -> result B) (b : B) :
  rbind r k = Ok b <-> exists a, r = Ok a /\ k a = Ok b.
Proof.
  destruct r as [a | e]; simpl; split.
  - intros H. exists a. auto.
  - intros [a' [Ha Hk]]. congruence.
  - discriminate.
  - intros [a' [Ha _]]. discriminate.
Qed.

Lemma same_structure_map_r {A B C} (f : B -> C) (a : nest A) :
  forall b, same_structure a (map_structure f b) = same_structure a b.
Proof.
  induction a as [x | l IH] using nest_induction; intros [y | lb]; simpl; try reflexivity.
  revert lb. induction IH as [| n l Hn _ IHl]; intros [| b lb]; simpl; try reflexivity.
  rewrite Hn, IHl. reflexivity.
Qed.

Lemma same_structure_map_l {A B C} (f : A -> C) (a : nest A) :
  forall b : nest B, same_structure (map_structure f a) b = same_structure a b.
Proof.
  induction a as [x | l IH] using nest_induction; intros [y | lb]; simpl; try reflexivity.
  revert lb. induction IH as [| n l Hn _ IHl]; intros [| b lb]; simpl; try reflexivity.
  rewrite Hn, IHl. reflexivity.
Qed.

Lemma same_structure_refl {A} (a : nest A) : same_structure a a = true.
Proof.
  induction a as [x | l IH] using nest_induction; simpl; [reflexivity |].
  induction IH as [| n l Hn _ IHl]; simpl; [reflexivity |].
  rewrite Hn, IHl. reflexivity.
Qed.

(** Structures of equal shape have the same nesting. *)
Lemma same_structure_of_map_eq {A B C} (f : A -> C) (g : B -> C) (a : nest A) :
  forall b, map_structure f a = map_structure g b -> same_structure a b = true.
Proof.
  intros b H.
  rewrite <- (same_structure_map_r g), <- H, same_structure_map_r.
  apply same_structure_refl.
Qed.

Lemma flatten_map_structure {A B} (f : A -> B) (n : nest A) :
  flatten (map_structure f n) = map f (flatten n).
Proof.
  induction n as [x | l IH] using nest_induction; simpl; [reflexivity |].
  induction IH as [| n l Hn _ IHl]; simpl; [reflexivity |].
  rewrite Hn, IHl, map_app. reflexivity.
Qed.

Lemma same_structure_length {A B} (a : nest A) :
  forall b : nest B, same_structure a b = true ->
  length (flatten a) = length (flatten b).
Proof.
  induction a as [x | l IH] using nest_induction; intros [y | lb]; simpl; try discriminate; [reflexivity |].
  revert lb. induction IH as [| n l Hn _ IHl]; intros [| b lb]; simpl;
    try discriminate; [reflexivity |].
  intros H. apply andb_true_iff in H as [H1 H2].
  rewrite !length_app, (Hn _ H1), (IHl _ H2). reflexivity.
Qed.

(** ** Assignment to structures of variables *)

Section AssignLemmas.
Context {D : DType}.
Implicit Types (v x r : nest (Tensor D)) (t : Tensor D).

Lemma tf_assign_Ok t1 t2 t3 :
  tf_assign t1 t2 = Ok t3 <-> shape t1 = shape t2 /\ t3 = t2.
Proof.
  unfold tf_assign. destruct (shape_eqb (shape t1) (shape t2)) eqn:E.
  - apply shape_eqb_true in E. split.
    + intros H. inversion H. subst. split; [exact E | reflexivity].
    + intros [_ ->]. reflexivity.
  - split; [discriminate |]. intros [H _].
    apply shape_eqb_true in H. congruence.
Qed.

Lemma map_list2_assign (vars vals rs : list (Tensor D)) :
  map_list2 tf_assign vars vals = Ok rs <->
  map (@shape D) vars = map (@shape D) vals /\ rs = vals.
Proof.
  revert vals rs. induction vars as [| a vars IH]; intros [| b vals] rs; simpl.
  - split; [intros H; inversion H; auto | intros [_ ->]; reflexivity].
  - split; [discriminate | intros [H _]; discriminate].
  - split; [discriminate | intros [H _]; discriminate].
  - rewrite rbind_Ok. split.
    + intros [t [Ht H]]. apply rbind_Ok in H as [rs' [Hrs H]].
      inversion H; subst. apply tf_assign_Ok in Ht as [Hs ->].
      apply IH in Hrs as [Hm ->]. split; congruence.
    + intros [Hm ->]. inversion Hm. exists b. split.
      * apply tf_assign_Ok. auto.
      * apply rbind_Ok. exists vals. split; [apply IH; auto | reflexivity].
Qed.

Lemma map_leaves2_assign v :
  forall x r, map_leaves2 tf_assign v x = Ok r <->
              nest_shape v = nest_shape x /\ r = x.
Proof.
  unfold nest_shape.
  induction v as [a | l IH] using nest_induction; intros [b | lb] r; simpl;
    try (split; [discriminate | intros [H _]; discriminate]).
  - rewrite rbind_Ok. split.
    + intros [t [Ht H]]. inversion H; subst.
      apply tf_assign_Ok in Ht as [Hs ->]. split; congruence.
    + intros [Hs ->]. exists b. split; [| reflexivity].
      apply tf_assign_Ok. split; congruence.
  - rewrite rbind_Ok.
    assert (Hl : forall lb rs,
               map_list2 (map_leaves2 tf_assign) l lb = Ok rs <->
               map (map_structure (@shape D)) l = map (map_structure (@shape D)) lb
               /\ rs = lb).
    { clear lb r. induction IH as [| n l Hn _ IHl]; intros [| b lb] rs; simpl.
      - split; [intros H; inversion H; auto | intros [_ ->]; reflexivity].
      - split; [discriminate | intros [H _]; discriminate].
      - split; [discriminate | intros [H _]; discriminate].
      - rewrite rbind_Ok. split.
        + intros [t [Ht H]]. apply rbind_Ok in H as [rs' [Hrs H]].
          inversion H; subst. apply Hn in Ht as [Hs ->].
          apply IHl in Hrs as [Hm ->]. split; congruence.
        + intros [Hm ->]. inversion Hm. exists b. split.
          * apply Hn. auto.
          * apply rbind_Ok. exists lb. split; [apply IHl; auto | reflexivity]. }
    split.
    + intros [rs [Hrs H]]. inversion H; subst.
      apply Hl in Hrs as [Hm ->]. split; congruence.
    + intros [Hm ->]. exists lb. split; [| reflexivity].
      apply Hl. split; [congruence | reflexivity].
Qed.

(** [nest.map_structure(tf.assign, vars, values)] succeeds exactly when
    the values have the variables' nesting and shapes; the variables
    then hold the values. *)
Lemma map_structure2_assign v x r :
  map_structure2 tf_assign v x = Ok r <-> nest_shape v = nest_shape x /\ r = x.
Proof.
  unfold map_structure2. destruct (same_structure v x) eqn:E.
  - apply map_leaves2_assign.
  - split; [discriminate |]. intros [H _].
    apply same_structure_of_map_eq in H. congruence.
Qed.

Lemma assign_leaves_shape v :
  forall (vals : list (Tensor D)) r rest,
    assign_leaves tf_assign v vals = Ok (r, rest) ->
    nest_shape r = nest_shape v /\ vals = flatten r ++ rest.
Proof.
  unfold nest_shape.
  induction v as [a | l IH] using nest_induction; intros vals r rest; simpl.
  - destruct vals as [| b vals]; [discriminate |].
    intros H. apply rbind_Ok in H as [t [Ht H]]. inversion H; subst.
    apply tf_assign_Ok in Ht as [Hs ->]. simpl. split; congruence.
  - intros H. apply rbind_Ok in H as [[rs rest'] [Hrs H]].
    inversion H; subst; clear H. simpl.
    enough (map (map_structure (@shape D)) rs = map (map_structure (@shape D)) l
            /\ vals = flat_map flatten rs ++ rest) as [H1 H2]
        by (split; congruence).
    revert vals rs rest Hrs.
    induction IH as [| n l Hn _ IHl]; intros vals rs rest; simpl.
    + intros H. inversion H; subst. auto.
    + intros H. apply rbind_Ok in H as [[r1 rest1] [Hr1 H]].
      apply rbind_Ok in H as [[rs2 rest2] [Hr2 H]].
      inversion H; subst; clear H. simpl in *.
      apply Hn in Hr1 as [Hs1 ->]. apply IHl in Hr2 as [Hs2 ->].
      simpl. rewrite <- app_assoc. split; congruence.
Qed.

Lemma assign_flat_Ok v (vals : list (Tensor D)) r :
  assign_flat v vals = Ok r -> nest_shape r = nest_shape v /\ flatten r = vals.
Proof.
  unfold assign_flat. intros H. apply rbind_Ok in H as [[r' rest] [Hr H]].
  simpl in H. destruct rest; [| discriminate]. inversion H; subst.
  apply assign_leaves_shape in Hr as [Hs ->]. rewrite app_nil_r. auto.
Qed.
End AssignLemmas.

(** ** The server's store *)

Ltac unfold_monad :=
  unfold bind, ret, raise, lift, get, put, assert_same_structure in *.

Section ServerLemmas.
Context {D : DType}.
Implicit Types (st : ServerVars D) (s : ServerState D)
  (d : nest (Tensor D)) (opt : Optimizer D).

Lemma map_list2_pair {A B C} (g : A -> C) (la : list A) :
  forall lb : list B,
    length la = length lb ->
    map_list2 (fun x v => Ok (g x, v)) la lb = Ok (combine (map g la) lb).
Proof.
  induction la as [| a la IH]; intros [| b lb]; simpl; try discriminate.
  - reflexivity.
  - intros H. injection H as H. rewrite (IH _ H). reflexivity.
Qed.

Lemma grads_and_vars_of_Ok d (vars : nest (Tensor D)) :
  same_structure d vars = true ->
  grads_and_vars_of d vars = Ok (combine (negated d) (flatten vars)).
Proof.
  intros H. unfold grads_and_vars_of, negated.
  apply map_list2_pair, same_structure_length, H.
Qed.

Lemma map_snd_combine {A B} (la : list A) :
  forall lb : list B, length la = length lb -> map snd (combine la lb) = lb.
Proof.
  induction la as [| a la IH]; intros [| b lb]; simpl; try discriminate.
  - reflexivity.
  - intros H. injection H as H. rewrite (IH _ H). reflexivity.
Qed.

(** [apply_delta] spelled out. *)
Lemma apply_delta_eq opt d st :
  apply_delta opt d st =
  if same_structure d (trainable (model_weights st))
  then apply_gradients opt
         (combine (negated d) (flatten (trainable (model_weights st)))) st
  else (Err StructureMismatch, st).
Proof.
  unfold apply_delta. unfold_monad.
  destruct (same_structure d (trainable (model_weights st))) eqn:E; [| reflexivity].
  rewrite (grads_and_vars_of_Ok _ _ E). reflexivity.
Qed.

(** A failing [apply_gradients] writes nothing. *)
Lemma apply_gradients_Err opt gv st e st' :
  apply_gradients opt gv st = (Err e, st') -> st' = st.
Proof.
  unfold apply_gradients.
  destruct (rbind _ _) as [[tr ov] | e']; intros H; inversion H; reflexivity.
Qed.

Lemma apply_gradients_Ok opt gv st st' :
  apply_gradients opt gv st = (Ok tt, st') ->
  exists nv no,
    update opt (variables_for opt gv st) gv = Ok (nv, no)
    /\ nest_shape (trainable (model_weights st')) =
       nest_shape (trainable (model_weights st))
    /\ flatten (trainable (model_weights st')) = nv
    /\ non_trainable (model_weights st') = non_trainable (model_weights st)
    /\ optimizer_created st' = true
    /\ optimizer_variables st' = no
    /\ map (@shape D) no = map (@shape D) (variables_for opt gv st).
Proof.
  unfold apply_gradients. fold (variables_for opt gv st).
  destruct (rbind _ _) as [[tr ov] | e'] eqn:E; intros H; inversion H; subst; clear H.
  apply rbind_Ok in E as [[nv no] [Hu E]]. simpl in E.
  apply rbind_Ok in E as [tr' [Htr E]].
  apply rbind_Ok in E as [ov' [Hov E]]. inversion E; subst; clear E.
  apply assign_flat_Ok in Htr as [Hs Hf].
  apply map_list2_assign in Hov as [Hm ->].
  exists nv, no. simpl. repeat split; auto.
Qed.

Lemma create_eq opt st :
  _create_optimizer_and_server_state opt st =
  match apply_delta opt
          (map_structure zeros_like (trainable (model_weights st))) st with
  | (Ok _, st') => (Ok (apply_delta opt), st')
  | (Err e, st') => (Err e, st')
  end.
Proof.
  unfold _create_optimizer_and_server_state. unfold bind at 1. unfold get at 1.
  unfold bind at 1. destruct (apply_delta _ _ _) as [[[] | e] st']; reflexivity.
Qed.

Lemma assign_server_vars_Ok s st st' :
  assign_server_vars s st = (Ok tt, st') <->
  nest_shape (trainable (model_weights st)) = nest_shape (trainable (model s))
  /\ nest_shape (non_trainable (model_weights st)) =
     nest_shape (non_trainable (model s))
  /\ map (@shape D) (optimizer_variables st) = map (@shape D) (optimizer_state s)
  /\ st' = {| model_weights := model s;
              optimizer_created := optimizer_created st;
              optimizer_variables := optimizer_state s |}.
Proof.
  unfold assign_server_vars. unfold_monad.
  destruct (map_structure2 tf_assign (trainable _) _) as [tr | e] eqn:Etr.
  2: { split; [discriminate |]. intros (H & _).
       assert (Hx : map_structure2 tf_assign (trainable (model_weights st))
                      (trainable (model s)) = Ok (trainable (model s)))
         by (apply map_structure2_assign; auto).
       congruence. }
  destruct (map_structure2 tf_assign (non_trainable _) _) as [nt | e] eqn:Ent.
  2: { split; [discriminate |]. intros (_ & H & _).
       assert (Hx : map_structure2 tf_assign (non_trainable (model_weights st))
                      (non_trainable (model s)) = Ok (non_trainable (model s)))
         by (apply map_structure2_assign; auto).
       congruence. }
  destruct (map_list2 tf_assign _ _) as [ov | e] eqn:Eov.
  2: { split; [discriminate |]. intros (_ & _ & H & _).
       assert (Hx : map_list2 tf_assign (optimizer_variables st)
                      (optimizer_state s) = Ok (optimizer_state s))
         by (apply map_list2_assign; auto).
       congruence. }
  apply map_structure2_assign in Etr as [Htr ->].
  apply map_structure2_assign in Ent as [Hnt ->].
  apply map_list2_assign in Eov as [Hov ->].
  destruct s as [[tr nt] os]; simpl in *.
  split.
  - intros H. inversion H. auto.
  - intros (_ & _ & _ & ->). reflexivity.
Qed.

(** [server_update_model] spelled out along its three stages. *)
Lemma server_update_model_eq s d mf opf :
  server_update_model s d mf opf =
  match _create_optimizer_and_server_state (opf tt) (new_vars (mf tt) (opf tt)) with
  | (Ok _, st1) =>
      match assign_server_vars s st1 with
      | (Ok _, st2) =>
          match apply_delta (opf tt) d st2 with
          | (Ok _, st3) =>
              Ok {| model := model_weights st3;
                    optimizer_state := optimizer_variables st3 |}
          | (Err e, _) => Err e
          end
      | (Err e, _) => Err e
      end
  | (Err e, _) => Err e
  end.
Proof.
  unfold server_update_model. unfold bind at 1.
  rewrite create_eq.
  destruct (apply_delta (opf tt) _ _) as [[[] | e] st1]; [| reflexivity].
  unfold update_model_inner. unfold bind at 1.
  destruct (assign_server_vars s st1) as [[[] | e] st2]; [| reflexivity].
  unfold bind at 1.
  destruct (apply_delta (opf tt) d st2) as [[[] | e] st3]; reflexivity.
Qed.

Lemma server_init_eq (mf : unit -> ModelWeights D) (opf : unit -> Optimizer D) :
  server_init mf opf =
  match _create_optimizer_and_server_state (opf tt) (new_vars (mf tt) (opf tt)) with
  | (Ok _, st1) =>
      Ok {| model := model_weights st1;
            optimizer_state := optimizer_variables st1 |}
  | (Err e, _) => Err e
  end.
Proof.
  unfold server_init. unfold bind at 1.
  destruct (_create_optimizer_and_server_state _ _) as [[f | e] st1]; reflexivity.
Qed.
End ServerLemmas.

(** ** Structures through their flattening *)

Section FlattenLemmas.
Context {A B C : Type}.

Lemma map_list2_length (f : A -> B -> result C) (la : list A) :
  forall (lb : list B) (r : list C),
    map_list2 f la lb = Ok r -> length la = length lb /\ length r = length la.
Proof.
  induction la as [| a la IH]; intros [| b lb] r; simpl; try discriminate.
  - intros H. inversion H. auto.
  - intros H. apply rbind_Ok in H as [c [_ H]].
    apply rbind_Ok in H as [rs [Hrs H]]. inversion H; subst.
    apply IH in Hrs as [H1 H2]. simpl. auto.
Qed.

Lemma map_list2_app (f : A -> B -> result C) (la1 la2 : list A) :
  forall lb1 lb2 : list B,
    length la1 = length lb1 ->
    map_list2 f (la1 ++ la2) (lb1 ++ lb2) =
    (r1 <-! map_list2 f la1 lb1 ;; r2 <-! map_list2 f la2 lb2 ;; Ok (r1 ++ r2)).
Proof.
  induction la1 as [| a la1 IH]; intros [| b lb1] lb2; simpl; try discriminate.
  - intros _. destruct (map_list2 f la2 lb2); reflexivity.
  - intros H. injection H as H. rewrite (IH _ _ H).
    destruct (f a b); simpl; [| reflexivity].
    destruct (map_list2 f la1 lb1); simpl; [| reflexivity].
    destruct (map_list2 f la2 lb2); reflexivity.
Qed.

Lemma app_eq_length_inv (l1 : list A) :
  forall l2 r1 r2,
    length l1 = length l2 -> l1 ++ r1 = l2 ++ r2 -> l1 = l2 /\ r1 = r2.
Proof.
  induction l1 as [| a l1 IH]; intros [| b l2] r1 r2; simpl; try discriminate.
  - auto.
  - intros Hl He. injection Hl as Hl. injection He as -> He.
    destruct (IH _ _ _ Hl He) as [-> ->]. auto.
Qed.

(** A structure is determined by its nesting and its leaves. *)
Lemma nest_ext (a : nest A) :
  forall b : nest A,
    structure_of a = structure_of b -> flatten a = flatten b -> a = b.
Proof.
  unfold structure_of.
  induction a as [x | l IH] using nest_induction; intros [y | lb]; simpl;
    try discriminate.
  - intros _ H. congruence.
  - intros Hs Hf. f_equal. injection Hs as Hs.
    revert lb Hs Hf.
    induction IH as [| n l Hn _ IHl]; intros [| b lb]; simpl; try discriminate.
    + reflexivity.
    + intros Hs Hf. injection Hs as Hs1 Hs2.
      assert (Hlen : length (flatten n) = length (flatten b)).
      { apply same_structure_length.
        apply (same_structure_of_map_eq _ _ _ _ Hs1). }
      destruct (app_eq_length_inv _ _ _ _ Hlen Hf) as [Hf1 Hf2].
      f_equal; auto.
Qed.

(** [map_leaves2] keeps the nesting and acts on the flattenings. *)
Lemma map_leaves2_flatten (f : A -> B -> result C) (a : nest A) :
  forall (b : nest B) (r : nest C),
    map_leaves2 f a b = Ok r ->
    structure_of r = structure_of a
    /\ map_list2 f (flatten a) (flatten b) = Ok (flatten r).
Proof.
  unfold structure_of.
  induction a as [x | l IH] using nest_induction; intros [y | lb] r; simpl;
    try discriminate.
  - intros H. apply rbind_Ok in H as [c [Hc H]]. inversion H; subst.
    simpl. rewrite Hc. auto.
  - intros H. apply rbind_Ok in H as [rs [Hrs H]]. inversion H; subst; clear H.
    simpl.
    enough (map (map_structure (fun _ => tt)) rs = map (map_structure (fun _ => tt)) l
            /\ map_list2 f (flat_map flatten l) (flat_map flatten lb)
               = Ok (flat_map flatten rs)) as [H1 H2] by (split; congruence).
    revert lb rs Hrs.
    induction IH as [| n l Hn _ IHl]; intros [| b lb] rs; simpl; try discriminate.
    + intros H. inversion H. auto.
    + intros H. apply rbind_Ok in H as [r1 [Hr1 H]].
      apply rbind_Ok in H as [rs2 [Hr2 H]]. inversion H; subst; clear H.
      apply Hn in Hr1 as [Hs1 Hf1]. apply IHl in Hr2 as [Hs2 Hf2].
      simpl. split; [congruence |].
      rewrite map_list2_app by (apply (map_list2_length _ _ _ Hf1)).
      rewrite Hf1, Hf2. reflexivity.
Qed.

(** With the same nesting, [map_leaves2] succeeds as soon as the
    leafwise operation succeeds on the flattenings. *)
Lemma map_leaves2_of_flatten (f : A -> B -> result C) (a : nest A) :
  forall (b : nest B) (rs : list C),
    same_structure a b = true ->
    map_list2 f (flatten a) (flatten b) = Ok rs ->
    exists r, map_leaves2 f a b = Ok r /\ flatten r = rs.
Proof.
  induction a as [x | l IH] using nest_induction; intros [y | lb] rs; simpl;
    try discriminate.
  - intros _ H. apply rbind_Ok in H as [c [Hc H]]. inversion H; subst.
    exists (Leaf c). rewrite Hc. auto.
  - intros Hs Hf.
    enough (exists rl, map_list2 (map_leaves2 f) l lb = Ok rl
                       /\ flat_map flatten rl = rs) as [rl [H1 H2]].
    { exists (Seq rl). rewrite H1. simpl. auto. }
    revert lb rs Hs Hf.
    induction IH as [| n l Hn _ IHl]; intros [| b lb] rs; simpl; try discriminate.
    + intros _ H. inversion H. exists []. auto.
    + intros Hs Hf. apply andb_true_iff in Hs as [Hs1 Hs2].
      rewrite map_list2_app in Hf by (apply same_structure_length, Hs1).
      apply rbind_Ok in Hf as [r1 [Hr1 Hf]].
      apply rbind_Ok in Hf as [r2 [Hr2 Hf]]. inversion Hf; subst; clear Hf.
      destruct (Hn _ _ Hs1 Hr1) as [t [Ht Hft]].
      destruct (IHl _ _ Hs2 Hr2) as [rl [Hrl Hfl]].
      exists (t :: rl). rewrite Ht, Hrl. simpl. split; congruence.
Qed.
End FlattenLemmas.

Lemma structure_of_nest_shape {D : DType} (a b : nest (Tensor D)) :
  nest_shape a = nest_shape b -> structure_of a = structure_of b.
Proof.
  unfold nest_shape, structure_of. intros H.
  apply (f_equal (map_structure (fun _ : list nat => tt))) in H.
  revert H.
  assert (Hc : forall n : nest (Tensor D),
             map_structure (fun _ : list nat => tt) (map_structure (@shape D) n)
             = map_structure (fun _ => tt) n).
  { induction n as [x | l IH] using nest_induction; simpl; [reflexivity |].
    f_equal. induction IH as [| n l Hn _ IHl]; simpl; [reflexivity |].
    rewrite Hn, IHl. reflexivity. }
  rewrite !Hc. auto.
Qed.

(** ** The dry run and the rehydration *)

Section ServerPipeline.
Context {D : DType}.
Implicit Types (st : ServerVars D) (s r : ServerState D)
  (d : nest (Tensor D)) (opt : Optimizer D) (m : ModelWeights D)
  (mf : unit -> ModelWeights D) (opf : unit -> Optimizer D).

Lemma negated_length d : length (negated d) = length (flatten d).
Proof. unfold negated. apply length_map. Qed.

Lemma zeros_structure (n : nest (Tensor D)) :
  same_structure (map_structure zeros_like n) n = true.
Proof. rewrite same_structure_map_l. apply same_structure_refl. Qed.

(** The store after a successful dry run: all optimizer variables
    exist, and every variable still has the shape it was made with. *)
Lemma dry_run_shapes opt m f st1 :
  _create_optimizer_and_server_state opt (new_vars m opt) = (Ok f, st1) ->
  f = apply_delta opt
  /\ optimizer_created st1 = true
  /\ nest_shape (trainable (model_weights st1)) = nest_shape (trainable m)
  /\ non_trainable (model_weights st1) = non_trainable m
  /\ map (@shape D) (optimizer_variables st1) =
     map (@shape D) (optimizer_variables (constructed_vars m opt)).
Proof.
  rewrite create_eq, apply_delta_eq. simpl.
  rewrite zeros_structure.
  destruct (apply_gradients _ _ _) as [[[] | e] st'] eqn:E; [| discriminate].
  intros H. inversion H; subst; clear H.
  apply apply_gradients_Ok in E as (nv & no & _ & Hs & _ & Hnt & Hc & Hov & Hsh).
  repeat split; auto.
  rewrite Hov, Hsh. unfold variables_for. simpl.
  rewrite map_snd_combine; [reflexivity |].
  rewrite negated_length. apply same_structure_length, zeros_structure.
Qed.

(** Rehydration after the dry run writes exactly the server state. *)
Lemma rehydrate_after_dry_run opt m f st1 s st2 :
  _create_optimizer_and_server_state opt (new_vars m opt) = (Ok f, st1) ->
  assign_server_vars s st1 = (Ok tt, st2) ->
  st2 = rehydrated s
  /\ assign_server_vars s (constructed_vars m opt) = (Ok tt, rehydrated s).
Proof.
  intros Hd Ha.
  apply dry_run_shapes in Hd as (_ & Hc & Htr & Hnt & Hov).
  apply assign_server_vars_Ok in Ha as (H1 & H2 & H3 & ->).
  rewrite Hc. split; [reflexivity |].
  apply assign_server_vars_Ok. unfold constructed_vars in *. simpl in *.
  repeat split; congruence.
Qed.

Lemma server_update_simple_eq s d mf opf :
  server_update_simple s d mf opf =
  match assign_server_vars s (constructed_vars (mf tt) (opf tt)) with
  | (Ok _, st2) =>
      match apply_delta (opf tt) d st2 with
      | (Ok _, st3) =>
          Ok {| model := model_weights st3;
                optimizer_state := optimizer_variables st3 |}
      | (Err e, _) => Err e
      end
  | (Err e, _) => Err e
  end.
Proof.
  unfold server_update_simple. unfold bind at 1.
  destruct (assign_server_vars s _) as [[[] | e] st2]; [| reflexivity].
  unfold bind at 1.
  destruct (apply_delta (opf tt) d st2) as [[[] | e] st3]; reflexivity.
Qed.

(** A successful [server_update_model], stage by stage. *)
Lemma server_update_model_Ok s d mf opf r :
  server_update_model s d mf opf = Ok r ->
  exists st1 st3,
    _create_optimizer_and_server_state (opf tt) (new_vars (mf tt) (opf tt))
    = (Ok (apply_delta (opf tt)), st1)
    /\ assign_server_vars s st1 = (Ok tt, rehydrated s)
    /\ apply_delta (opf tt) d (rehydrated s) = (Ok tt, st3)
    /\ r = {| model := model_weights st3;
              optimizer_state := optimizer_variables st3 |}.
Proof.
  rewrite server_update_model_eq.
  destruct (_create_optimizer_and_server_state _ _) as [[f | e] st1] eqn:Ed;
    [| discriminate].
  destruct (assign_server_vars s st1) as [[[] | e] st2] eqn:Ea; [| discriminate].
  destruct (rehydrate_after_dry_run _ _ _ Ed Ea) as [-> _].
  destruct (apply_delta (opf tt) d (rehydrated s)) as [[[] | e] st3] eqn:Eapp;
    [| discriminate].
  intros H. inversion H; subst; clear H.
  apply dry_run_shapes in Ed as Hf. destruct Hf as [-> _].
  exists st1, st3. auto.
Qed.

(** The structure test of [apply_delta] sees only the nesting. *)
Lemma same_structure_nest_shape d (a b : nest (Tensor D)) :
  nest_shape a = nest_shape b -> same_structure d a = same_structure d b.
Proof.
  unfold nest_shape. intros H.
  rewrite <- (same_structure_map_r (@shape D) d a), H.
  apply same_structure_map_r.
Qed.
End ServerPipeline.

(** ** Server update: the claims *)

Section ServerClaims.
Context {D : DType}.
Implicit Types (st : ServerVars D) (s r : ServerState D)
  (d : nest (Tensor D)) (opt : Optimizer D) (m : ModelWeights D)
  (mf : unit -> ModelWeights D) (opf : unit -> Optimizer D).

(** Once all optimizer variables exist, [apply_gradients] depends on
    the optimizer only through its update rule. *)
Lemma apply_gradients_rule opt opt' gv st :
  optimizer_created st = true ->
  update opt' = update opt ->
  apply_gradients opt' gv st = apply_gradients opt gv st.
Proof.
  intros Hc Hu. unfold apply_gradients. rewrite Hc, Hu. reflexivity.
Qed.

(** A successful [apply_delta] on rehydrated variables is one step of
    the update rule on the values of the server state. *)
Lemma apply_delta_rehydrated opt d s st3 :
  apply_delta opt d (rehydrated s) = (Ok tt, st3) ->
  same_structure d (trainable (model s)) = true
  /\ exists nv no,
      update opt (optimizer_state s)
        (combine (negated d) (flatten (trainable (model s)))) = Ok (nv, no)
      /\ nest_shape (trainable (model_weights st3)) = nest_shape (trainable (model s))
      /\ flatten (trainable (model_weights st3)) = nv
      /\ non_trainable (model_weights st3) = non_trainable (model s)
      /\ optimizer_variables st3 = no.
Proof.
  rewrite apply_delta_eq. simpl.
  destruct (same_structure d (trainable (model s))); [| discriminate].
  intros H. split; [reflexivity |].
  apply apply_gradients_Ok in H as (nv & no & Hu & Hs & Hf & Hnt & _ & Hov & _).
  exists nv, no. auto.
Qed.
End ServerClaims.

(** C3.  Whenever [server_update_model] returns a state, the variables
    constructed by the factories (and stepped by the dry run) were all
    overwritten with the input [server_state] before the delta was
    applied: after the assignment the model weights, trainable and
    non-trainable, and the optimizer variables are exactly those of
    [server_state], and the update rule is run on these values, not on
    the factories' initial ones. *)
Theorem server_update_copies_server_state {D : DType}
  (s : ServerState D) (d : nest (Tensor D))
  (mf : unit -> ModelWeights D) (opf : unit -> Optimizer D) (r : ServerState D) :
  server_update_model s d mf opf = Ok r ->
  exists st1 st2 st3,
    _create_optimizer_and_server_state (opf tt) (new_vars (mf tt) (opf tt))
    = (Ok (apply_delta (opf tt)), st1)
    /\ assign_server_vars s st1 = (Ok tt, st2)
    /\ model_weights st2 = model s
    /\ optimizer_variables st2 = optimizer_state s
    /\ apply_delta (opf tt) d st2 = (Ok tt, st3)
    /\ r = {| model := model_weights st3;
              optimizer_state := optimizer_variables st3 |}
    /\ exists nv no,
        update (opf tt) (optimizer_state s)
          (combine (negated d) (flatten (trainable (model s)))) = Ok (nv, no)
        /\ flatten (trainable (model r)) = nv
        /\ non_trainable (model r) = non_trainable (model s)
        /\ optimizer_state r = no.
Proof.
  intros H.
  apply server_update_model_Ok in H as (st1 & st3 & Hd & Ha & Happ & ->).
  exists st1, (rehydrated s), st3.
  repeat (split; [first [assumption | reflexivity] |]).
  apply apply_delta_rehydrated in Happ as (_ & nv & no & Hu & _ & Hf & Hnt & Hov).
  exists nv, no. simpl. auto.
Qed.

(** C9.  [apply_delta] compares the nesting of the delta with that of
    the model's trainable weights before anything else: on a mismatch it
    raises, the update rule is not run and no variable is written.
    Consequently [server_update_model] never returns a state for a
    delta whose nesting differs from that of the trainable weights. *)
Theorem structure_mismatch_fails_fast {D : DType}
  (d : nest (Tensor D)) :
  (forall (opt : Optimizer D) (st : ServerVars D),
      same_structure d (trainable (model_weights st)) = false ->
      apply_delta opt d st = (Err StructureMismatch, st))
  /\ (forall (s : ServerState D) (mf : unit -> ModelWeights D)
             (opf : unit -> Optimizer D),
         same_structure d (trainable (mf tt)) = false ->
         exists e, server_update_model s d mf opf = Err e).
Proof.
  split.
  - intros opt st H. rewrite apply_delta_eq, H. reflexivity.
  - intros s mf opf H.
    destruct (server_update_model s d mf opf) as [r | e] eqn:E; [| eauto].
    exfalso.
    apply server_update_model_Ok in E as (st1 & st3 & Hd & Ha & Happ & _).
    apply dry_run_shapes in Hd as (_ & _ & Htr & _).
    apply assign_server_vars_Ok in Ha as (H1 & _).
    apply apply_delta_rehydrated in Happ as (Hs & _).
    rewrite <- (same_structure_nest_shape d _ _ H1) in Hs.
    rewrite (same_structure_nest_shape d _ _ Htr) in Hs.
    congruence.
Qed.

(** C10.  [server_update_model] returns a state exactly when the dry run
    succeeds and the pipeline without it (construct the variables, copy
    the server state into them, apply the delta once) returns that
    state; and two calls on the same server state and delta whose
    factories share the update rule return the same state, whatever
    values the factories initialise the variables with. *)
Theorem server_update_independent_of_dry_run {D : DType}
  (s : ServerState D) (d : nest (Tensor D))
  (mf : unit -> ModelWeights D) (opf : unit -> Optimizer D) :
  (forall r,
      server_update_model s d mf opf = Ok r <->
      (exists f st1,
          _create_optimizer_and_server_state (opf tt) (new_vars (mf tt) (opf tt))
          = (Ok f, st1))
      /\ server_update_simple s d mf opf = Ok r)
  /\ (forall (mf' : unit -> ModelWeights D) (opf' : unit -> Optimizer D) r r',
         update (opf' tt) = update (opf tt) ->
         server_update_model s d mf opf = Ok r ->
         server_update_model s d mf' opf' = Ok r' ->
         r = r').
Proof.
  split.
  - intros r. split.
    + intros H.
      apply server_update_model_Ok in H as (st1 & st3 & Hd & Ha & Happ & ->).
      split; [eauto |].
      rewrite server_update_simple_eq.
      destruct (rehydrate_after_dry_run _ _ _ Hd Ha) as [_ ->].
      rewrite Happ. reflexivity.
    + intros [(f & st1 & Hd) H].
      rewrite server_update_simple_eq in H.
      rewrite server_update_model_eq, Hd.
      destruct (assign_server_vars s (constructed_vars _ _)) as [[[] | e] st2] eqn:Ea;
        [| discriminate].
      apply assign_server_vars_Ok in Ea as (H1 & H2 & H3 & ->).
      apply dry_run_shapes in Hd as (_ & Hc & Htr & Hnt & Hov).
      assert (Ha : assign_server_vars s st1 = (Ok tt, rehydrated s)).
      { apply assign_server_vars_Ok. unfold constructed_vars in *. simpl in *.
        rewrite Hc. repeat split; congruence. }
      rewrite Ha. exact H.
  - intros mf' opf' r r' Hu H H'.
    apply server_update_model_Ok in H as (st1 & st3 & _ & _ & Happ & ->).
    apply server_update_model_Ok in H' as (st1' & st3' & _ & _ & Happ' & ->).
    rewrite apply_delta_eq in Happ, Happ'.
    rewrite (apply_gradients_rule (opf tt) (opf' tt)) in Happ' by (auto).
    rewrite Happ in Happ'. inversion Happ'. reflexivity.
Qed.

(** ** Gradient descent on the server *)

Lemma same_structure_sym {A B} (a : nest A) :
  forall b : nest B, same_structure a b = same_structure b a.
Proof.
  induction a as [x | l IH] using nest_induction; intros [y | lb]; simpl;
    try reflexivity.
  revert lb. induction IH as [| n l Hn _ IHl]; intros [| b lb]; simpl;
    try reflexivity.
  rewrite Hn, IHl. reflexivity.
Qed.

Lemma map_result_combine {A B C R} (F : B -> C -> result R) (g : A -> C)
  (la : list A) :
  forall lb : list B,
    length la = length lb ->
    map_result (fun p => F (snd p) (fst p)) (combine (map g la) lb)
    = map_list2 (fun w x => F w (g x)) lb la.
Proof.
  induction la as [| a la IH]; intros [| b lb]; simpl; try discriminate.
  - reflexivity.
  - intros H. injection H as H. rewrite (IH _ H). reflexivity.
Qed.

Lemma map_list2_ext_in {A B C} (f g : A -> B -> result C) (la : list A) :
  forall lb : list B,
    (forall x y, In x la -> In y lb -> f x y = g x y) ->
    map_list2 f la lb = map_list2 g la lb.
Proof.
  induction la as [| a la IH]; intros [| b lb] H; simpl; try reflexivity.
  rewrite (H a b), (IH lb); simpl; auto.
  intros x y Hx Hy. apply H; simpl; auto.
Qed.

(** Leafwise operations that agree on the leaves at hand give the same
    successful [nest.map_structure]. *)
Lemma map_structure2_ext_Ok {A B C} (f g : A -> B -> result C)
  (a : nest A) (b : nest B) (r : nest C) :
  (forall x y, In x (flatten a) -> In y (flatten b) -> f x y = g x y) ->
  map_structure2 f a b = Ok r -> map_structure2 g a b = Ok r.
Proof.
  unfold map_structure2. intros Hfg.
  destruct (same_structure a b) eqn:Hs; [| discriminate].
  intros H. apply map_leaves2_flatten in H as [Hst Hf].
  rewrite (map_list2_ext_in _ _ _ _ Hfg) in Hf.
  destruct (map_leaves2_of_flatten _ _ _ Hs Hf) as [r' [Hr' Hfl]].
  rewrite Hr'. f_equal. apply nest_ext; [| exact Hfl].
  apply map_leaves2_flatten in Hr' as [Hst' _]. congruence.
Qed.

Section GradientDescent.
Context {D : DType}.
Implicit Types (s r : ServerState D) (d : nest (Tensor D)) (lr : D).

(** One server step of gradient descent, leaf by leaf. *)
Lemma sgd_step lr d s st3 :
  apply_delta (gradient_descent lr) d (rehydrated s) = (Ok tt, st3) ->
  map_structure2 (sgd_leaf lr) (trainable (model s)) d
  = Ok (trainable (model_weights st3))
  /\ non_trainable (model_weights st3) = non_trainable (model s)
  /\ optimizer_variables st3 = optimizer_state s.
Proof.
  intros H.
  apply apply_delta_rehydrated in H as (Hs & nv & no & Hu & Hsh & Hf & Hnt & Hov).
  simpl in Hu. apply rbind_Ok in Hu as [vals [Hv Hu]]. inversion Hu; subst; clear Hu.
  rewrite same_structure_sym in Hs.
  unfold negated in Hv.
  assert (Hlen : length (flatten d) = length (flatten (trainable (model s))))
    by (symmetry; apply same_structure_length, Hs).
  pose proof (map_result_combine
                (fun w g => tf_subtract w (scalar_mul lr g))
                (scalar_mul (dopp D (done D))) _ _ Hlen) as E.
  cbv beta in E. rewrite E in Hv. clear E.
  destruct (map_leaves2_of_flatten _ _ _ Hs Hv) as [r' [Hr' Hfl]].
  unfold map_structure2. rewrite Hs.
  repeat split; auto.
  unfold sgd_leaf. rewrite Hr'. f_equal. apply nest_ext; [| congruence].
  apply map_leaves2_flatten in Hr' as [Hst' _].
  rewrite Hst'. symmetry. apply structure_of_nest_shape, Hsh.
Qed.

(** A successful gradient-descent update, as a whole. *)
Lemma sgd_update_Ok lr s d (mf : unit -> ModelWeights D) r :
  server_update_model s d mf (fun _ => gradient_descent lr) = Ok r ->
  map_structure2 (sgd_leaf lr) (trainable (model s)) d = Ok (trainable (model r))
  /\ non_trainable (model r) = non_trainable (model s)
  /\ optimizer_state r = optimizer_state s.
Proof.
  intros H.
  apply server_update_model_Ok in H as (st1 & st3 & _ & _ & Happ & ->).
  apply sgd_step in Happ. exact Happ.
Qed.

Lemma zip_with_map_r (f h : D -> D -> D) (g : D -> D) (l1 : list D) :
  forall l2,
    (forall a b, In a l1 -> In b l2 -> f a (g b) = h a b) ->
    zip_with f l1 (map g l2) = zip_with h l1 l2.
Proof.
  unfold zip_with.
  induction l1 as [| a l1 IH]; intros [| b l2] H; simpl; try reflexivity.
  rewrite (H a b), (IH l2); simpl; auto.
  intros x y Hx Hy. apply H; simpl; auto.
Qed.
End GradientDescent.

Lemma sgd_leaf_one_is_add {D : DType} (w x : Tensor D) :
  (forall a b, In a (data w) -> In b (data x) -> sgd_law a b) ->
  sgd_leaf (done D) w x = tf_add w x.
Proof.
  intros H. unfold sgd_leaf, tf_subtract, tf_add, elementwise, scalar_mul. simpl.
  destruct (shape_eqb (shape w) (shape x)); [| reflexivity].
  rewrite map_map. f_equal. f_equal.
  apply (zip_with_map_r (dsub D) (dadd D)). exact H.
Qed.

Lemma in_elements {D : DType} (n : nest (Tensor D)) (t : Tensor D) (a : D) :
  In t (flatten n) -> In a (data t) -> In a (elements n).
Proof.
  intros Ht Ha. unfold elements. apply in_flat_map. exists t. auto.
Qed.

(** *** binary32: the step with learning rate one is an addition *)

Lemma digits_scaled (m : positive) :
  Zpos (digits2_pos (8388608 * m)) = (Zpos (digits2_pos m) + 23)%Z.
Proof. cbn [Pos.mul digits2_pos]. lia. Qed.

Lemma shr_scaled (m : positive) (e : Z) :
  shr (shr_record_of_loc (Zpos (8388608 * m)) loc_Exact) e 23
  = ({| shr_m := Zpos m; shr_r := false; shr_s := false |}, (e + 23)%Z).
Proof. reflexivity. Qed.

(** Rounding [(2^23 * m) * 2^(e - 23)] gives back the binary32 number
    [m * 2^e]. *)
Lemma round_scaled (s : bool) (m : positive) (e : Z) :
  bounded F32.prec F32.emax m e = true ->
  binary_round_aux F32.prec F32.emax s (Zpos (8388608 * m)) (-23 + e) loc_Exact
  = S754_finite s m e.
Proof.
  unfold bounded, canonical_mantissa. intros H.
  apply andb_true_iff in H as [Hc Hb].
  apply Z.eqb_eq in Hc.
  unfold binary_round_aux, shr_fexp.
  unfold Zdigits2 at 1. rewrite digits_scaled.
  replace (Z.pos (digits2_pos m) + 23 + (-23 + e))%Z
    with (Z.pos (digits2_pos m) + e)%Z by lia.
  rewrite Hc.
  replace (e - (-23 + e))%Z with 23%Z by lia.
  rewrite shr_scaled.
  replace (-23 + e + 23)%Z with e by lia.
  cbv beta iota zeta.
  change (round_nearest_even
            (shr_m {| shr_m := Z.pos m; shr_r := false; shr_s := false |})
            (loc_of_shr_record
               {| shr_m := Z.pos m; shr_r := false; shr_s := false |}))
    with (Z.pos m).
  unfold Zdigits2. rewrite Hc, Z.sub_diag.
  change (shr (shr_record_of_loc (Z.pos m) loc_Exact) e 0)
    with ({| shr_m := Z.pos m; shr_r := false; shr_s := false |}, e).
  cbv beta iota zeta.
  change (shr_m {| shr_m := Z.pos m; shr_r := false; shr_s := false |})
    with (Z.pos m).
  cbv beta iota. rewrite Hb. reflexivity.
Qed.

Lemma float32_mul_one (x : F32.t) :
  F32.valid x = true -> F32.mul F32.one x = x.
Proof.
  destruct x as [s | s | | s m e]; try reflexivity.
  intros H. unfold F32.mul, F32.one, SFmul. simpl xorb.
  apply round_scaled. exact H.
Qed.

Lemma float32_mul_minus_one (x : F32.t) :
  F32.valid x = true -> F32.mul (F32.opp F32.one) x = F32.opp x.
Proof.
  destruct x as [s | s | | s m e]; try reflexivity.
  intros H. unfold F32.mul, F32.one, F32.opp, SFmul, SFopp.
  apply round_scaled. exact H.
Qed.

Lemma float32_sub_opp (w x : F32.t) : F32.sub w (F32.opp x) = F32.add w x.
Proof.
  unfold F32.sub, F32.add, F32.opp.
  destruct w as [sw | sw | | sw mw ew], x as [sx | sx | | sx mx ex]; simpl;
    try reflexivity;
    destruct sw, sx; reflexivity.
Qed.

(** In binary32, [w - 1.0 * (-1.0 * x)] is the float sum [w + x] for
    every [w] and every binary32 number [x]. *)
Lemma float32_sgd_law (w x : F32.t) :
  F32.valid x = true -> sgd_law (D := float32) w x.
Proof.
  intros H. unfold sgd_law.
  change (F32.sub w (F32.mul F32.one (F32.mul (F32.opp F32.one) x))
          = F32.add w x).
  rewrite (float32_mul_minus_one _ H).
  rewrite float32_mul_one.
  - apply float32_sub_opp.
  - destruct x; exact H.
Qed.

(** C2.  [apply_delta] hands the optimizer the pairs
    [(-1.0 * delta_leaf, trainable_variable_leaf)], leaf by leaf in
    flattening order.  With plain gradient descent of learning rate one
    the new trainable weights are the old ones plus the delta, on all
    values where [w - 1 * (-1 * x)] is [w + x]: in binary32 that is
    every delta made of binary32 numbers.  In the end-to-end scenario
    (binary32, weight [1.0], aggregated delta [-0.1]) the updated
    weight is [0.9]. *)
Theorem server_update_negates_delta :
  (forall (D : DType) (opt : Optimizer D) (d : nest (Tensor D)) (st : ServerVars D),
      same_structure d (trainable (model_weights st)) = true ->
      grads_and_vars_of d (trainable (model_weights st))
      = Ok (combine (map (scalar_mul (dopp D (done D))) (flatten d))
              (flatten (trainable (model_weights st))))
      /\ apply_delta opt d st
         = apply_gradients opt
             (combine (map (scalar_mul (dopp D (done D))) (flatten d))
                (flatten (trainable (model_weights st)))) st)
  /\ (forall (D : DType) (s : ServerState D) (d : nest (Tensor D))
             (mf : unit -> ModelWeights D) (r : ServerState D),
         (forall w x, In w (elements (trainable (model s))) ->
                      In x (elements d) -> sgd_law w x) ->
         server_update_model s d mf (fun _ => gradient_descent (done D)) = Ok r ->
         map_structure2 tf_add (trainable (model s)) d = Ok (trainable (model r)))
  /\ (forall (s : ServerState float32) (d : nest (Tensor float32))
             (mf : unit -> ModelWeights float32) (r : ServerState float32),
         Forall (fun x => F32.valid x = true) (elements d) ->
         server_update_model s d mf (fun _ => gradient_descent Scenario.f_1) = Ok r ->
         map_structure2 tf_add (trainable (model s)) d = Ok (trainable (model r)))
  /\ server_update_model
       (Scenario.stateless Scenario.f_1)
       (Scenario.scalar_delta Scenario.f_minus_0_1)
       (fun _ => Scenario.scalar_model Scenario.f_1)
       (fun _ => gradient_descent Scenario.f_1)
     = Ok (Scenario.stateless Scenario.f_0_9).
Proof.
  assert (Hadd : forall (D : DType) (s : ServerState D) (d : nest (Tensor D))
                        (mf : unit -> ModelWeights D) (r : ServerState D),
             (forall w x, In w (elements (trainable (model s))) ->
                          In x (elements d) -> sgd_law w x) ->
             server_update_model s d mf (fun _ => gradient_descent (done D)) = Ok r ->
             map_structure2 tf_add (trainable (model s)) d
             = Ok (trainable (model r))).
  { intros D s d mf r Hlaw H.
    apply sgd_update_Ok in H as (H & _ & _).
    revert H. apply map_structure2_ext_Ok.
    intros w x Hw Hx. apply sgd_leaf_one_is_add.
    intros a b Ha Hb. apply Hlaw; eapply in_elements; eauto. }
  split; [| split; [exact Hadd | split]].
  - intros D opt d st H. split.
    + apply grads_and_vars_of_Ok, H.
    + rewrite apply_delta_eq, H. reflexivity.
  - intros s d mf r Hv H. apply (Hadd float32 s d mf r); [| exact H].
    intros w x _ Hx. apply float32_sgd_law.
    rewrite Forall_forall in Hv. apply Hv, Hx.
  - vm_compute. reflexivity.
Qed.

Lemma server_update_negates_delta_witness :
  (same_structure (Scenario.scalar_delta Scenario.f_minus_0_1)
     (trainable (model_weights (rehydrated (Scenario.stateless Scenario.f_1)))) = true
   /\ apply_delta (gradient_descent Scenario.f_1)
        (Scenario.scalar_delta Scenario.f_minus_0_1)
        (rehydrated (Scenario.stateless Scenario.f_1))
      = apply_gradients (gradient_descent Scenario.f_1)
          (combine
             (map (scalar_mul (dopp float32 (done float32)))
                (flatten (Scenario.scalar_delta Scenario.f_minus_0_1)))
             (flatten (trainable (model_weights
                                    (rehydrated (Scenario.stateless Scenario.f_1))))))
          (rehydrated (Scenario.stateless Scenario.f_1)))
  /\ map_structure2 tf_add
       (trainable (model (Scenario.stateless Scenario.f_1)))
       (Scenario.scalar_delta Scenario.f_minus_0_1)
     = Ok (trainable (model (Scenario.stateless Scenario.f_0_9))).
Proof.
  split; [split |].
  - reflexivity.
  - apply (proj1 server_update_negates_delta float32). reflexivity.
  - apply (proj1 (proj2 server_update_negates_delta) float32
             (Scenario.stateless Scenario.f_1)
             (Scenario.scalar_delta Scenario.f_minus_0_1)
             (fun _ => Scenario.scalar_model Scenario.f_1)
             (Scenario.stateless Scenario.f_0_9)).
    + intros w x Hw Hx. simpl in Hw, Hx.
      destruct Hw as [<- | []]. destruct Hx as [<- | []].
      vm_compute. reflexivity.
    + vm_compute. reflexivity.
Defined.

(** ** A zero delta after [server_init] *)

Section ZeroDelta.
Context {D : DType}.
Implicit Types (st : ServerVars D) (opt : Optimizer D).

Lemma assign_leaves_self (v : nest (Tensor D)) :
  forall rest, assign_leaves tf_assign v (flatten v ++ rest) = Ok (v, rest).
Proof.
  induction v as [a | l IH] using nest_induction; intros rest; simpl.
  - unfold tf_assign. rewrite shape_eqb_refl. reflexivity.
  - enough (thread_list (assign_leaves tf_assign) l (flat_map flatten l ++ rest)
            = Ok (l, rest)) as -> by reflexivity.
    induction IH as [| n l Hn _ IHl]; simpl; [reflexivity |].
    rewrite <- app_assoc, Hn. simpl. rewrite IHl. reflexivity.
Qed.

Lemma assign_flat_self (v : nest (Tensor D)) : assign_flat v (flatten v) = Ok v.
Proof.
  unfold assign_flat.
  rewrite <- (app_nil_r (flatten v)) at 1. rewrite assign_leaves_self.
  reflexivity.
Qed.

(** After a [zero_step], applying the all-zero delta has left the
    model weights as they are. *)
Lemma zero_step_apply opt st ovars' :
  zero_step opt (trainable (model_weights st))
    (variables_for opt (zero_pairs (trainable (model_weights st))) st) ovars' ->
  apply_delta opt (map_structure zeros_like (trainable (model_weights st))) st
  = (Ok tt, {| model_weights := model_weights st;
               optimizer_created := true;
               optimizer_variables := ovars' |}).
Proof.
  intros [Hu Hsh]. rewrite apply_delta_eq, zeros_structure.
  unfold apply_gradients.
  fold (zero_pairs (trainable (model_weights st))).
  fold (variables_for opt (zero_pairs (trainable (model_weights st))) st).
  rewrite Hu. simpl. rewrite assign_flat_self. simpl.
  assert (Hov : map_list2 tf_assign
                  (variables_for opt (zero_pairs (trainable (model_weights st))) st)
                  ovars' = Ok ovars')
    by (apply map_list2_assign; auto).
  rewrite Hov. simpl. destruct (model_weights st); reflexivity.
Qed.

Lemma map_snd_zero_pairs (vars : nest (Tensor D)) :
  map snd (zero_pairs vars) = flatten vars.
Proof.
  unfold zero_pairs. apply map_snd_combine.
  rewrite negated_length. apply same_structure_length, zeros_structure.
Qed.
End ZeroDelta.

(** C4 (as amended).  Let the update rule of [optimizer_fn], run on the
    all-zero delta from the optimizer's freshly created variables,
    succeed and leave the model's trainable variables as they are, and
    likewise once more from the optimizer variables it has then.  Then
    [server_init] returns a state, [server_update_model] on that state
    and the all-zero delta returns a state, and the model of the second
    is the model of the first (the one [model_fn] made). *)
Theorem zero_delta_keeps_model {D : DType}
  (mf : unit -> ModelWeights D) (opf : unit -> Optimizer D)
  (o1 o2 : list (Tensor D)) :
  zero_step (opf tt) (trainable (mf tt))
    (optimizer_variables (constructed_vars (mf tt) (opf tt))) o1 ->
  zero_step (opf tt) (trainable (mf tt)) o1 o2 ->
  exists s0 s1,
    server_init mf opf = Ok s0
    /\ server_update_model s0
         (map_structure zeros_like (trainable (model s0))) mf opf = Ok s1
    /\ model s1 = model s0
    /\ model s0 = mf tt.
Proof.
  intros H1 H2.
  assert (Hd : apply_delta (opf tt)
                 (map_structure zeros_like (trainable (mf tt)))
                 (new_vars (mf tt) (opf tt))
               = (Ok tt, {| model_weights := mf tt;
                            optimizer_created := true;
                            optimizer_variables := o1 |})).
  { apply (@zero_step_apply D (opf tt) (new_vars (mf tt) (opf tt)) o1).
    unfold variables_for. simpl. rewrite map_snd_zero_pairs. exact H1. }
  set (s0 := {| model := mf tt; optimizer_state := o1 |}).
  assert (Hd' : apply_delta (opf tt)
                  (map_structure zeros_like (trainable (mf tt))) (rehydrated s0)
                = (Ok tt, {| model_weights := mf tt;
                             optimizer_created := true;
                             optimizer_variables := o2 |})).
  { apply (@zero_step_apply D (opf tt) (rehydrated s0) o2). exact H2. }
  exists s0, {| model := mf tt; optimizer_state := o2 |}.
  split; [| split; [| split; reflexivity]].
  - rewrite server_init_eq, create_eq. simpl. rewrite Hd. reflexivity.
  - rewrite server_update_model_eq, create_eq. simpl. rewrite Hd.
    assert (Ha : assign_server_vars s0
                   {| model_weights := mf tt; optimizer_created := true;
                      optimizer_variables := o1 |} = (Ok tt, rehydrated s0)).
    { apply assign_server_vars_Ok. simpl. auto. }
    rewrite Ha. simpl. rewrite Hd'. reflexivity.
Qed.

Lemma zero_delta_keeps_model_witness :
  let mf := fun _ : unit => Scenario.scalar_model Scenario.f_1 in
  let opf := fun _ : unit => momentum Scenario.f_1 Scenario.f_0_5 in
  let o := [Scenario.scalar Scenario.f_0] in
  zero_step (opf tt) (trainable (mf tt))
    (optimizer_variables (constructed_vars (mf tt) (opf tt))) o
  /\ zero_step (opf tt) (trainable (mf tt)) o o
  /\ exists s0 s1,
      server_init mf opf = Ok s0
      /\ server_update_model s0
           (map_structure zeros_like (trainable (model s0))) mf opf = Ok s1
      /\ model s1 = model s0
      /\ model s0 = mf tt.
Proof.
  cbv zeta.
  assert (H1 : zero_step (momentum Scenario.f_1 Scenario.f_0_5)
                 (trainable (Scenario.scalar_model Scenario.f_1))
                 (optimizer_variables
                    (constructed_vars (Scenario.scalar_model Scenario.f_1)
                       (momentum Scenario.f_1 Scenario.f_0_5)))
                 [Scenario.scalar Scenario.f_0])
    by (split; vm_compute; reflexivity).
  assert (H2 : zero_step (momentum Scenario.f_1 Scenario.f_0_5)
                 (trainable (Scenario.scalar_model Scenario.f_1))
                 [Scenario.scalar Scenario.f_0] [Scenario.scalar Scenario.f_0])
    by (split; vm_compute; reflexivity).
  split; [exact H1 |]. split; [exact H2 |].
  apply (zero_delta_keeps_model
           (fun _ : unit => Scenario.scalar_model Scenario.f_1)
           (fun _ : unit => momentum Scenario.f_1 Scenario.f_0_5)
           H1 H2).
Defined.

(** C4 as stated fails: with proximal gradient descent (binary32, one
    weight [1.0], learning rate [1.0], L2 strength [1.0]) [server_init]
    returns the weight [0.5], and [server_update_model] on that state
    and the zero delta returns the weight [0.25]. *)
Lemma zero_delta_changes_model_with_shrinkage :
  ~ (forall (D : DType) (mf : unit -> ModelWeights D) (opf : unit -> Optimizer D)
            (s0 s1 : ServerState D),
        server_init mf opf = Ok s0 ->
        server_update_model s0
          (map_structure zeros_like (trainable (model s0))) mf opf = Ok s1 ->
        model s1 = model s0).
Proof.
  intros H.
  specialize (H float32
                (fun _ => Scenario.scalar_model Scenario.f_1)
                (fun _ => proximal_gradient_descent Scenario.f_1 Scenario.f_1)
                (Scenario.stateless Scenario.f_0_5)
                (Scenario.stateless Scenario.f_0_25)).
  assert (H0 : model (Scenario.stateless Scenario.f_0_25)
               = model (Scenario.stateless Scenario.f_0_5)).
  { apply H; vm_compute; reflexivity. }
  vm_compute in H0. discriminate H0.
Qed.

(** ** Two updates against one *)

Section TwoUpdates.
Context {D : DType}.
Hypothesis Rth :
  ring_theory (dzero D) (done D) (dadd D) (dmul D) (dsub D) (dopp D) eq.
Add Ring DRing : Rth.

Implicit Types (lr : D) (w x : Tensor D).




End TwoUpdates.




(** ** The client's store *)

Section ClientLemmas.
Context {D : DType} {Batch LocalVars Metrics : Type}.
Implicit Types (self : ClientFedAvg D Batch LocalVars Metrics)
  (model : TrainableModel D Batch LocalVars Metrics)
  (st : ClientVars D LocalVars) (mv : ModelVars D LocalVars)
  (iw : ModelWeights D) (ds : list Batch).

Lemma assign_weights_Ok iw st st' :
  assign_weights iw st = (Ok tt, st') <->
  nest_shape (trainable (weights (model_vars st))) = nest_shape (trainable iw)
  /\ nest_shape (non_trainable (weights (model_vars st))) =
     nest_shape (non_trainable iw)
  /\ st' = {| model_vars := set_weights iw (model_vars st);
              _num_examples := _num_examples st |}.
Proof.
  unfold assign_weights. unfold_monad.
  destruct (map_structure2 tf_assign (trainable _) _) as [tr | e] eqn:Etr.
  2: { split; [discriminate |]. intros (H & _).
       assert (Hx : map_structure2 tf_assign
                      (trainable (weights (model_vars st))) (trainable iw)
                    = Ok (trainable iw))
         by (apply map_structure2_assign; auto).
       congruence. }
  destruct (map_structure2 tf_assign (non_trainable _) _) as [nt | e] eqn:Ent.
  2: { split; [discriminate |]. intros (_ & H & _).
       assert (Hx : map_structure2 tf_assign
                      (non_trainable (weights (model_vars st))) (non_trainable iw)
                    = Ok (non_trainable iw))
         by (apply map_structure2_assign; auto).
       congruence. }
  apply map_structure2_assign in Etr as [Htr ->].
  apply map_structure2_assign in Ent as [Hnt ->].
  unfold set_weights. destruct iw as [tr nt]; simpl in *.
  split.
  - intros H. inversion H. auto.
  - intros (_ & _ & ->). reflexivity.
Qed.

(** The reduction over the dataset: every batch is trained on, in
    order, and its size is added to the counter. *)
Lemma dataset_reduce_Ok self ds :
  forall (z z' : F32.t) st st',
    dataset_reduce (reduce_fn self) ds z st = (Ok z', st') ->
    z' = z
    /\ model_vars st' = train_all (_model self) ds (model_vars st)
    /\ _num_examples st' =
       count_examples (batch_sizes (_model self) ds (model_vars st))
         (_num_examples st).
Proof.
  induction ds as [| b ds IH]; intros z z' st st'; simpl.
  - unfold ret. intros H. inversion H. auto.
  - unfold bind at 1. unfold reduce_fn at 1. unfold_monad.
    unfold train_all, count_examples, batch_size. simpl.
    destruct (train_on_batch (_model self) b (model_vars st)) as [output mv] eqn:Et.
    simpl. unfold leading_dim.
    destruct (shape (predictions output)) as [| n sh]; [discriminate |].
    simpl. intros H. apply IH in H as (-> & Hmv & Hn). simpl in *.
    auto.
Qed.

Lemma weight_fn_of_init model mv cwf (agg : Metrics) st :
  _client_weight_fn (fst (__init__ model mv cwf)) agg st
  = (Ok match cwf with
        | Some f => f agg
        | None => F32.of_Z (_num_examples st)
        end, st).
Proof. destruct cwf; reflexivity. Qed.

(** [__call__] finishes whatever [local_update] returns. *)
Lemma call_eq self ds iw st :
  __call__ self ds iw st =
  match local_update self ds iw st with
  | (Ok r, st') => (Ok (client_output r (_num_examples st')), st')
  | (Err e, st') => (Err e, st')
  end.
Proof.
  unfold __call__. unfold bind at 1.
  destruct (local_update self ds iw st) as [[[[[dummy wd] agg] w] | e] st'];
    [| reflexivity].
  unfold client_output. destruct (zero_all_if_any_non_finite wd) as [wd' flag].
  reflexivity.
Qed.

(** A successful [local_update] of an instance made by [__init__]. *)
Lemma local_update_Ok model mv cwf ds iw st dummy wd agg w st' :
  local_update (fst (__init__ model mv cwf)) ds iw st
  = (Ok (dummy, wd, agg, w), st') ->
  nest_shape (trainable (weights (model_vars st))) = nest_shape (trainable iw)
  /\ nest_shape (non_trainable (weights (model_vars st))) =
     nest_shape (non_trainable iw)
  /\ model_vars st' = train_all model ds (set_weights iw (model_vars st))
  /\ _num_examples st' =
     count_examples (batch_sizes model ds (set_weights iw (model_vars st)))
       (_num_examples st)
  /\ dummy = F32.zero
  /\ map_structure2 tf_subtract (trainable (weights (model_vars st')))
       (trainable iw) = Ok wd
  /\ agg = aggregated_outputs model (model_vars st')
  /\ w = match cwf with
         | Some f => f agg
         | None => F32.of_Z (_num_examples st')
         end.
Proof.
  unfold local_update. unfold bind at 1.
  destruct (assign_weights iw st) as [[[] | e] st1] eqn:Ea; [| discriminate].
  apply assign_weights_Ok in Ea as (Htr & Hnt & ->).
  unfold bind at 1.
  destruct (dataset_reduce _ ds F32.zero _) as [[z | e] st2] eqn:Er; [| discriminate].
  apply dataset_reduce_Ok in Er as (-> & Hmv & Hn). simpl in Hmv, Hn.
  unfold bind at 1. unfold get at 1. unfold bind at 1. unfold lift at 1.
  destruct (map_structure2 tf_subtract _ _) as [wd' | e] eqn:Es; [| discriminate].
  unfold bind at 1. rewrite weight_fn_of_init. unfold ret.
  intros H. inversion H; subst; clear H.
  repeat split; auto.
Qed.
End ClientLemmas.

(** ** Client update: the claims *)

Lemma map_structure_map {A B C} (f : A -> B) (g : B -> C) (n : nest A) :
  map_structure g (map_structure f n) = map_structure (fun x => g (f x)) n.
Proof.
  induction n as [x | l IH] using nest_induction; simpl; [reflexivity |].
  f_equal. induction IH as [| n l Hn _ IHl]; simpl; [reflexivity |].
  rewrite Hn, IHl. reflexivity.
Qed.

Lemma zeros_like_shape {D : DType} (n : nest (Tensor D)) :
  nest_shape (map_structure zeros_like n) = nest_shape n.
Proof. unfold nest_shape. rewrite map_structure_map. reflexivity. Qed.

Lemma zeros_like_zero {D : DType} (n : nest (Tensor D)) :
  Forall is_zero_tensor (flatten (map_structure zeros_like n)).
Proof.
  rewrite flatten_map_structure. apply Forall_forall.
  intros t Ht. apply in_map_iff in Ht as [t0 [<- _]].
  unfold is_zero_tensor, zeros_like. simpl.
  apply Forall_forall. intros x Hx. apply in_map_iff in Hx as [y [<- _]].
  reflexivity.
Qed.

Lemma forallb_false {A} (p : A -> bool) (l : list A) :
  forallb p l = false <-> exists x, In x l /\ p x = false.
Proof.
  induction l as [| a l IH]; simpl.
  - split; [discriminate | intros (x & [] & _)].
  - rewrite andb_false_iff, IH. split.
    + intros [Ha | (x & Hx & Hp)]; [exists a | exists x]; auto.
    + intros (x & [<- | Hx] & Hp); [left | right; exists x]; auto.
Qed.

(** In binary32 the non-finite values are NaN and the two infinities. *)
Lemma float32_non_finite (x : F32.t) :
  is_finite float32 x = false <-> x = S754_nan \/ exists s, x = S754_infinity s.
Proof.
  destruct x as [s | s | | s m e]; simpl; split; try discriminate; eauto;
    intros [H | [s' H]]; discriminate.
Qed.

Lemma has_non_finite_iff {D : DType} (n : nest (Tensor D)) :
  has_non_finite n <-> forallb all_finite (flatten n) = false.
Proof.
  unfold has_non_finite. rewrite forallb_false. split.
  - intros (t & x & Ht & Hx & Hf). exists t. split; [exact Ht |].
    apply forallb_false. exists x. auto.
  - intros (t & Ht & Hf). apply forallb_false in Hf as (x & Hx & Hf).
    exists t, x. auto.
Qed.

(** C1.  Let [weights_delta] and [weight] be what [__call__] has computed
    when it reaches the non-finite guard.  If some leaf of
    [weights_delta] contains a NaN or an infinite value, the returned
    output carries an all-zero tensor of the same shape for every leaf,
    the flag [has_non_finite_delta] set (1), and the weight [0.0],
    whatever client weight function the instance was made with.  If
    every element is finite, [weights_delta] and [weight] are returned
    unchanged and the flag is clear (0). *)
Theorem non_finite_guard {D : DType} {Batch LocalVars Metrics : Type}
  (model : TrainableModel D Batch LocalVars Metrics) (mv : ModelVars D LocalVars)
  (cwf : option (Metrics -> F32.t)) (ds : list Batch) (iw : ModelWeights D)
  (st st' : ClientVars D LocalVars)
  (dummy : F32.t) (wd : nest (Tensor D)) (agg : Metrics) (w : F32.t) :
  local_update (fst (__init__ model mv cwf)) ds iw st
  = (Ok (dummy, wd, agg, w), st') ->
  exists out,
    __call__ (fst (__init__ model mv cwf)) ds iw st = (Ok out, st')
    /\ w = match cwf with
           | Some f => f agg
           | None => F32.of_Z (_num_examples st')
           end
    /\ (has_non_finite wd ->
        weights_delta out = map_structure zeros_like wd
        /\ nest_shape (weights_delta out) = nest_shape wd
        /\ Forall is_zero_tensor (flatten (weights_delta out))
        /\ has_non_finite_delta (stats out) = 1%Z
        /\ weight out = F32.zero)
    /\ (~ has_non_finite wd ->
        weights_delta out = wd
        /\ has_non_finite_delta (stats out) = 0%Z
        /\ weight out = w).
Proof.
  intros H.
  exists (client_output (dummy, wd, agg, w) (_num_examples st')).
  split; [rewrite call_eq, H; reflexivity |].
  split; [apply local_update_Ok in H; tauto |].
  unfold client_output, zero_all_if_any_non_finite.
  split.
  - intros Hnf. apply has_non_finite_iff in Hnf. rewrite Hnf. simpl.
    repeat split.
    + apply zeros_like_shape.
    + apply zeros_like_zero.
  - intros Hf. rewrite has_non_finite_iff in Hf.
    destruct (forallb all_finite (flatten wd)); [| congruence].
    simpl. auto.
Qed.

Lemma non_finite_guard_witness :
  let model := Scenario.toy_model (fun _ => Scenario.scalar_model (D := float32) S754_nan) in
  let cwf := Some (fun _ : unit => Scenario.f_7) in
  let iw := Scenario.scalar_model Scenario.f_1 in
  let st := snd (__init__ model (Scenario.toy_vars Scenario.f_0) cwf) in
  let wd := Scenario.scalar_delta (D := float32) S754_nan in
  let st' := {| model_vars := Scenario.toy_vars (D := float32) S754_nan;
                _num_examples := 4 |} in
  local_update (fst (__init__ model (Scenario.toy_vars Scenario.f_0) cwf))
    [4%nat] iw st = (Ok (F32.zero, wd, tt, Scenario.f_7), st')
  /\ has_non_finite wd
  /\ exists out,
      __call__ (fst (__init__ model (Scenario.toy_vars Scenario.f_0) cwf))
        [4%nat] iw st = (Ok out, st')
      /\ weights_delta out = Scenario.scalar_delta Scenario.f_0
      /\ has_non_finite_delta (stats out) = 1%Z
      /\ weight out = F32.zero.
Proof.
  cbv zeta.
  assert (Hrun : local_update
                   (fst (__init__
                           (Scenario.toy_model
                              (fun _ => Scenario.scalar_model (D := float32) S754_nan))
                           (Scenario.toy_vars Scenario.f_0)
                           (Some (fun _ : unit => Scenario.f_7))))
                   [4%nat] (Scenario.scalar_model Scenario.f_1)
                   (snd (__init__
                           (Scenario.toy_model
                              (fun _ => Scenario.scalar_model (D := float32) S754_nan))
                           (Scenario.toy_vars Scenario.f_0)
                           (Some (fun _ : unit => Scenario.f_7))))
                 = (Ok (F32.zero, Scenario.scalar_delta (D := float32) S754_nan,
                        tt, Scenario.f_7),
                    {| model_vars := Scenario.toy_vars (D := float32) S754_nan;
                       _num_examples := 4 |}))
    by (vm_compute; reflexivity).
  assert (Hnf : has_non_finite (Scenario.scalar_delta (D := float32) S754_nan)).
  { exists (Scenario.scalar (D := float32) S754_nan), S754_nan.
    simpl. auto. }
  split; [exact Hrun |]. split; [exact Hnf |].
  destruct (non_finite_guard _ _ _ _ _ _ Hrun) as (out & Hcall & _ & Hbad & _).
  destruct (Hbad Hnf) as (Hwd & _ & _ & Hflag & Hw).
  exists out. repeat split; assumption.
Defined.

Lemma wrap_int32_small (z : Z) : int32_range z -> wrap_int32 z = z.
Proof.
  unfold int32_range, wrap_int32. intros H.
  rewrite Z.mod_small by lia. lia.
Qed.

Lemma total_nonneg (sizes : list nat) : (0 <= total sizes)%Z.
Proof.
  unfold total. induction sizes as [| n l IH]; simpl; lia.
Qed.

(** Without overflow the counter grows by the sum of the sizes. *)
Lemma count_examples_exact (sizes : list nat) :
  forall n : Z,
    int32_range n ->
    (n + total sizes < 2147483648)%Z ->
    count_examples sizes n = (n + total sizes)%Z.
Proof.
  unfold count_examples, total.
  induction sizes as [| k l IH]; intros n Hn Hs; simpl in *.
  - lia.
  - fold (total l) in *. pose proof (total_nonneg l) as Hl.
    assert (Hr : int32_range (n + Z.of_nat k)) by (unfold int32_range in *; lia).
    rewrite (wrap_int32_small Hr). rewrite IH; [lia | exact Hr | lia].
Qed.

Lemma train_all_logging {D : DType} {Batch LocalVars Metrics : Type}
  (model : TrainableModel D Batch LocalVars Metrics) (ds : list Batch) :
  forall mv : ModelVars D (LocalVars * list Batch),
    snd (local_variables (train_all (logging model) ds mv))
    = snd (local_variables mv) ++ ds.
Proof.
  unfold train_all.
  induction ds as [| b ds IH]; intros mv; simpl.
  - rewrite app_nil_r. reflexivity.
  - rewrite IH. simpl.
    destruct (train_on_batch model b _) as [output mv']. simpl.
    rewrite <- app_assoc. reflexivity.
Qed.

(** *** When the client call returns *)

Lemma map_list2_elementwise_shapes {D : DType} (f : D -> D -> D)
  (la : list (Tensor D)) :
  forall lb : list (Tensor D),
    map (@shape D) la = map (@shape D) lb ->
    exists rs, map_list2 (elementwise f) la lb = Ok rs.
Proof.
  induction la as [| a la IH]; intros [| b lb] H; simpl in *; try discriminate.
  - eauto.
  - injection H as Hs Hl. destruct (IH _ Hl) as [rs Hrs].
    unfold elementwise at 1. rewrite Hs, shape_eqb_refl. simpl.
    rewrite Hrs. simpl. eauto.
Qed.

(** Structures of the same shapes can be subtracted. *)
Lemma subtract_same_shape {D : DType} (a b : nest (Tensor D)) :
  nest_shape a = nest_shape b ->
  exists r, map_structure2 tf_subtract a b = Ok r.
Proof.
  intros H. unfold map_structure2.
  rewrite (same_structure_of_map_eq _ _ _ _ H).
  assert (Hf : map (@shape D) (flatten a) = map (@shape D) (flatten b)).
  { unfold nest_shape in H. rewrite <- !flatten_map_structure, H. reflexivity. }
  destruct (map_list2_elementwise_shapes (dsub D) _ _ Hf) as [rs Hrs].
  destruct (map_leaves2_of_flatten _ _ _
              (same_structure_of_map_eq _ _ _ _ H) Hrs) as [r [Hr _]].
  exists r. exact Hr.
Qed.

Section CallReturns.
Context {D : DType} {Batch LocalVars Metrics : Type}.
Variable model : TrainableModel D Batch LocalVars Metrics.

(** The predictions always have a leading dimension. *)
Hypothesis predictions_batched :
  forall batch mv, shape (predictions (fst (train_on_batch model batch mv))) <> [].

(** Training keeps the shapes of the trainable variables. *)
Hypothesis training_keeps_shapes :
  forall batch mv,
    nest_shape (trainable (weights (snd (train_on_batch model batch mv))))
    = nest_shape (trainable (weights mv)).

Lemma dataset_reduce_returns (self : ClientFedAvg D Batch LocalVars Metrics)
  (ds : list Batch) :
  _model self = model ->
  forall (z : F32.t) (st : ClientVars D LocalVars),
  exists st', dataset_reduce (reduce_fn self) ds z st = (Ok z, st').
Proof.
  intros Hm. induction ds as [| b ds IH]; intros z st; simpl.
  - unfold ret. eauto.
  - unfold bind at 1. unfold reduce_fn at 1. unfold_monad. rewrite Hm.
    pose proof (predictions_batched b (model_vars st)) as Hp.
    destruct (train_on_batch model b (model_vars st)) as [output mv]. simpl in *.
    unfold leading_dim.
    destruct (shape (predictions output)) as [| n sh]; [congruence |].
    simpl. apply IH.
Qed.

Lemma train_all_shapes (ds : list Batch) :
  forall mv : ModelVars D LocalVars,
    nest_shape (trainable (weights (train_all model ds mv)))
    = nest_shape (trainable (weights mv)).
Proof.
  unfold train_all. induction ds as [| b ds IH]; intros mv; simpl.
  - reflexivity.
  - rewrite IH. apply training_keeps_shapes.
Qed.

(** For initial weights of the model's structure, [__call__] returns. *)
Lemma call_returns (mv : ModelVars D LocalVars) (cwf : option (Metrics -> F32.t))
  (ds : list Batch) (iw : ModelWeights D) (st : ClientVars D LocalVars) :
  nest_shape (trainable (weights (model_vars st))) = nest_shape (trainable iw) ->
  nest_shape (non_trainable (weights (model_vars st))) =
  nest_shape (non_trainable iw) ->
  exists out st', __call__ (fst (__init__ model mv cwf)) ds iw st = (Ok out, st').
Proof.
  intros Htr Hnt. rewrite call_eq.
  enough (exists r st', local_update (fst (__init__ model mv cwf)) ds iw st
                        = (Ok r, st')) as (r & st' & ->) by eauto.
  unfold local_update. unfold bind at 1.
  assert (Ha : assign_weights iw st
               = (Ok tt, {| model_vars := set_weights iw (model_vars st);
                            _num_examples := _num_examples st |}))
    by (apply assign_weights_Ok; auto).
  rewrite Ha. unfold bind at 1.
  destruct (dataset_reduce_returns (fst (__init__ model mv cwf)) ds eq_refl F32.zero
              {| model_vars := set_weights iw (model_vars st);
                 _num_examples := _num_examples st |}) as [st2 Hr].
  rewrite Hr.
  apply dataset_reduce_Ok in Hr as (_ & Hmv & _). simpl in Hmv.
  unfold bind at 1. unfold get at 1. unfold bind at 1. unfold lift at 1.
  destruct (subtract_same_shape
              (trainable (weights (model_vars st2))) (trainable iw)) as [wd Hwd].
  { rewrite Hmv, train_all_shapes. reflexivity. }
  rewrite Hwd. unfold bind at 1. rewrite weight_fn_of_init. unfold ret. eauto.
Qed.
End CallReturns.

(** C7.  Whenever [__call__] returns, the model's variables are those
    obtained by folding [train_on_batch] over the batches from left to
    right, starting from the model with [initial_weights] assigned;
    [weights_delta] is computed from that final model, as the leafwise
    [tf.subtract] of its trainable weights and the trainable initial
    weights, and it is what the non-finite guard is given.  For a model
    that records its calls, the record grows by exactly the dataset:
    one call per batch, in dataset order. *)
Theorem client_update_is_left_fold {D : DType} {Batch LocalVars Metrics : Type}
  (mv : ModelVars D LocalVars) (cwf : option (Metrics -> F32.t))
  (ds : list Batch) (iw : ModelWeights D) :
  (forall (model : TrainableModel D Batch LocalVars Metrics)
          (st st' : ClientVars D LocalVars) (out : ClientOutput D Metrics),
      __call__ (fst (__init__ model mv cwf)) ds iw st = (Ok out, st') ->
      let final :=
        fold_left (fun mv batch => snd (train_on_batch model batch mv)) ds
          (set_weights iw (model_vars st)) in
      model_vars st' = final
      /\ exists wd,
          map_structure2 tf_subtract (trainable (weights final)) (trainable iw) = Ok wd
          /\ structure_of wd = structure_of (trainable (weights final))
          /\ map_list2 tf_subtract (flatten (trainable (weights final)))
               (flatten (trainable iw)) = Ok (flatten wd)
          /\ weights_delta out = fst (zero_all_if_any_non_finite wd))
  /\ (forall (model : TrainableModel D Batch LocalVars Metrics)
             (log : list Batch) (l : LocalVars) (w0 : ModelWeights D) (n : Z)
             (st' : ClientVars D (LocalVars * list Batch))
             (out : ClientOutput D Metrics),
         __call__ (fst (__init__ (logging model)
                          {| weights := w0; local_variables := (l, log) |} cwf))
           ds iw
           {| model_vars := {| weights := w0; local_variables := (l, log) |};
              _num_examples := n |}
         = (Ok out, st') ->
         snd (local_variables (model_vars st')) = log ++ ds).
Proof.
  split.
  - intros model st st' out H. rewrite call_eq in H.
    destruct (local_update _ ds iw st) as [[[[[dummy wd] agg] w] | e] st1] eqn:E;
      [| discriminate].
    inversion H; subst; clear H.
    apply local_update_Ok in E as (_ & _ & Hmv & _ & _ & Hs & _ & _).
    unfold train_all in Hmv. cbv zeta. rewrite <- Hmv.
    split; [reflexivity |].
    exists wd. split; [exact Hs |].
    unfold map_structure2 in Hs.
    destruct (same_structure _ _); [| discriminate].
    apply map_leaves2_flatten in Hs as [Hst Hf].
    repeat split; auto.
    unfold client_output. destruct (zero_all_if_any_non_finite wd). reflexivity.
  - intros model log l w0 n st' out H. rewrite call_eq in H.
    destruct (local_update _ ds iw _) as [[[[[dummy wd] agg] w] | e] st1] eqn:E;
      [| discriminate].
    inversion H; subst; clear H.
    apply local_update_Ok in E as (_ & _ & Hmv & _).
    rewrite Hmv, train_all_logging. reflexivity.
Qed.

Lemma client_update_is_left_fold_witness :
  let model := Scenario.toy_model Scenario.bump in
  let mv := Scenario.toy_vars Scenario.f_0 in
  let iw := Scenario.scalar_model Scenario.f_1 in
  exists out st' out2 st2,
    __call__ (fst (__init__ model mv None)) [2%nat; 3%nat] iw
      (snd (__init__ model mv None)) = (Ok out, st')
    /\ model_vars st' = Scenario.toy_vars Scenario.f_3
    /\ weights_delta out = Scenario.scalar_delta Scenario.f_2
    /\ __call__ (fst (__init__ (logging model)
                        {| weights := Scenario.scalar_model Scenario.f_0;
                           local_variables := (tt, [7%nat]) |} None))
         [2%nat; 3%nat] iw
         {| model_vars := {| weights := Scenario.scalar_model Scenario.f_0;
                             local_variables := (tt, [7%nat]) |};
            _num_examples := 0 |} = (Ok out2, st2)
    /\ snd (local_variables (model_vars st2)) = [7%nat; 2%nat; 3%nat].
Proof.
  cbv zeta.
  destruct (__call__
              (fst (__init__ (Scenario.toy_model Scenario.bump)
                      (Scenario.toy_vars Scenario.f_0) None))
              [2%nat; 3%nat] (Scenario.scalar_model Scenario.f_1)
              (snd (__init__ (Scenario.toy_model Scenario.bump)
                      (Scenario.toy_vars Scenario.f_0) None)))
    as [[out | e] st'] eqn:E1; [| vm_compute in E1; discriminate E1].
  destruct (__call__
              (fst (__init__ (logging (Scenario.toy_model Scenario.bump))
                      {| weights := Scenario.scalar_model Scenario.f_0;
                         local_variables := (tt, [7%nat]) |} None))
              [2%nat; 3%nat] (Scenario.scalar_model Scenario.f_1)
              {| model_vars := {| weights := Scenario.scalar_model Scenario.f_0;
                                  local_variables := (tt, [7%nat]) |};
                 _num_examples := 0 |})
    as [[out2 | e] st2] eqn:E2; [| vm_compute in E2; discriminate E2].
  exists out, st', out2, st2.
  pose proof (@client_update_is_left_fold float32 nat unit unit
                (Scenario.toy_vars Scenario.f_0) None
                [2%nat; 3%nat] (Scenario.scalar_model Scenario.f_1)) as [H1 H2].
  pose proof (H1 _ _ _ _ E1) as (Hmv & wd & Hs & _ & _ & Hout).
  pose proof (H2 _ _ _ _ _ _ _ E2) as Hlog.
  split; [reflexivity |].
  split; [rewrite Hmv; vm_compute; reflexivity |].
  split.
  - rewrite Hout. vm_compute in Hs. inversion Hs; subst. vm_compute. reflexivity.
  - split; [reflexivity | exact Hlog].
Defined.

(** C6 (as amended).  [__init__] creates the counter with value 0, and
    [__call__] never resets it: the returned [num_examples] is the value
    of the counter when the call starts plus the sizes of the batches of
    this call, added one by one in [tf.int32] arithmetic, and the counter
    keeps that value.  Without overflow it is the counter at entry plus
    the sum of the batch sizes; on an instance whose counter is 0, as
    after [__init__], it is exactly the sum of the batch sizes. *)
Theorem num_examples_accumulates {D : DType} {Batch LocalVars Metrics : Type}
  (model : TrainableModel D Batch LocalVars Metrics) (mv : ModelVars D LocalVars)
  (cwf : option (Metrics -> F32.t)) (ds : list Batch) (iw : ModelWeights D)
  (st st' : ClientVars D LocalVars) (out : ClientOutput D Metrics) :
  __call__ (fst (__init__ model mv cwf)) ds iw st = (Ok out, st') ->
  let sizes := batch_sizes model ds (set_weights iw (model_vars st)) in
  _num_examples (snd (__init__ model mv cwf)) = 0%Z
  /\ num_examples (stats out) = count_examples sizes (_num_examples st)
  /\ _num_examples st' = num_examples (stats out)
  /\ (int32_range (_num_examples st) ->
      (_num_examples st + total sizes < 2147483648)%Z ->
      num_examples (stats out) = (_num_examples st + total sizes)%Z)
  /\ (_num_examples st = 0%Z ->
      (total sizes < 2147483648)%Z ->
      num_examples (stats out) = total sizes).
Proof.
  intros H. rewrite call_eq in H.
  destruct (local_update _ ds iw st) as [[[[[dummy wd] agg] w] | e] st1] eqn:E;
    [| discriminate].
  inversion H; subst; clear H.
  apply local_update_Ok in E as (_ & _ & _ & Hn & _).
  unfold client_output. cbv zeta.
  destruct (zero_all_if_any_non_finite wd) as [wd' flag]. simpl.
  rewrite Hn. repeat split.
  - intros Hr Hs. apply count_examples_exact; assumption.
  - intros H0 Hs. rewrite H0 in *.
    rewrite count_examples_exact; [lia | unfold int32_range; lia | lia].
Qed.

Lemma num_examples_accumulates_witness :
  let model := Scenario.toy_model Scenario.bump in
  let mv := Scenario.toy_vars Scenario.f_0 in
  let iw := Scenario.scalar_model Scenario.f_1 in
  exists out st',
    __call__ (fst (__init__ model mv None)) [2%nat; 3%nat] iw
      (snd (__init__ model mv None)) = (Ok out, st')
    /\ num_examples (stats out) = 5%Z
    /\ _num_examples st' = 5%Z.
Proof.
  cbv zeta.
  destruct (__call__
              (fst (__init__ (Scenario.toy_model Scenario.bump)
                      (Scenario.toy_vars Scenario.f_0) None))
              [2%nat; 3%nat] (Scenario.scalar_model Scenario.f_1)
              (snd (__init__ (Scenario.toy_model Scenario.bump)
                      (Scenario.toy_vars Scenario.f_0) None)))
    as [[out | e] st'] eqn:E1; [| vm_compute in E1; discriminate E1].
  exists out, st'.
  pose proof (num_examples_accumulates _ _ _ _ _ _ E1) as (_ & _ & Hst & _ & H0).
  split; [reflexivity |].
  assert (Hn : num_examples (stats out) = 5%Z).
  { rewrite H0; [vm_compute; reflexivity | reflexivity | vm_compute; reflexivity]. }
  split; [exact Hn | rewrite Hst; exact Hn].
Defined.

(** C6 as stated fails on the second call of one instance: after a
    call on one batch of 5 examples, a call on one batch of 3 examples
    returns [num_examples = 8]. *)
Lemma num_examples_not_reset_between_calls :
  ~ (forall (D : DType) (Batch LocalVars Metrics : Type)
            (model : TrainableModel D Batch LocalVars Metrics)
            (mv : ModelVars D LocalVars) (cwf : option (Metrics -> F32.t))
            (ds1 ds2 : list Batch) (iw1 iw2 : ModelWeights D)
            (st1 st2 : ClientVars D LocalVars) (out1 out2 : ClientOutput D Metrics),
        __call__ (fst (__init__ model mv cwf)) ds1 iw1 (snd (__init__ model mv cwf))
        = (Ok out1, st1) ->
        __call__ (fst (__init__ model mv cwf)) ds2 iw2 st1 = (Ok out2, st2) ->
        num_examples (stats out2)
        = total (batch_sizes model ds2 (set_weights iw2 (model_vars st1)))).
Proof.
  intros H.
  pose (model := Scenario.toy_model (D := float32) (fun w => w)).
  pose (mv := Scenario.toy_vars Scenario.f_0).
  pose (iw := Scenario.scalar_model Scenario.f_1).
  destruct (__call__ (fst (__init__ model mv None)) [5%nat] iw
              (snd (__init__ model mv None)))
    as [[out1 | e] st1] eqn:E1; [| vm_compute in E1; discriminate E1].
  destruct (__call__ (fst (__init__ model mv None)) [3%nat] iw st1)
    as [[out2 | e] st2] eqn:E2;
    [| vm_compute in E1; inversion E1; subst; vm_compute in E2; discriminate E2].
  specialize (H _ _ _ _ model mv None [5%nat] [3%nat] iw iw st1 st2 out1 out2 E1 E2).
  vm_compute in E1. inversion E1; subst; clear E1.
  vm_compute in E2. inversion E2; subst; clear E2.
  vm_compute in H. discriminate H.
Qed.

(** ** The empty dataset *)

Lemma zip_with_self {D : DType} (f : D -> D -> D) (l : list D) :
  zip_with f l l = map (fun x => f x x) l.
Proof.
  unfold zip_with. induction l as [| a l IH]; simpl; [reflexivity |].
  rewrite IH. reflexivity.
Qed.

Lemma tf_subtract_self {D : DType} (t : Tensor D) :
  tf_subtract t t = Ok (self_difference t).
Proof.
  unfold tf_subtract, elementwise, self_difference.
  rewrite shape_eqb_refl, zip_with_self. reflexivity.
Qed.

Lemma subtract_self {D : DType} (n : nest (Tensor D)) :
  map_structure2 tf_subtract n n = Ok (map_structure self_difference n).
Proof.
  unfold map_structure2. rewrite same_structure_refl.
  induction n as [t | l IH] using nest_induction; simpl.
  - rewrite tf_subtract_self. reflexivity.
  - enough (map_list2 (map_leaves2 tf_subtract) l l
            = Ok (map (map_structure self_difference) l)) as -> by reflexivity.
    induction IH as [| n l Hn _ IHl]; simpl; [reflexivity |].
    rewrite Hn. simpl. rewrite IHl. reflexivity.
Qed.

(** binary32: [x - x] is [+0.0] or not finite. *)
Lemma float32_sub_self : sub_self_law float32.
Proof.
  intros x. simpl.
  destruct x as [[|] | [|] | | s m e]; simpl; try reflexivity; try discriminate.
  intros _. unfold F32.sub, SFsub.
  rewrite Z.min_id.
  assert (Hz : forall z : Z, (z - z = 0)%Z) by (intros; lia).
  rewrite Hz. reflexivity.
Qed.

(** A difference of a structure with itself that passes the guard is
    all zero. *)
Lemma guarded_self_difference_zero {D : DType} (n : nest (Tensor D)) :
  sub_self_law D ->
  Forall is_zero_tensor
    (flatten (fst (zero_all_if_any_non_finite (map_structure self_difference n)))).
Proof.
  intros Hlaw. unfold zero_all_if_any_non_finite.
  destruct (forallb all_finite _) eqn:E; simpl.
  - rewrite forallb_forall in E. apply Forall_forall. intros t Ht.
    specialize (E t Ht). unfold all_finite in E. rewrite forallb_forall in E.
    rewrite flatten_map_structure in Ht. apply in_map_iff in Ht as [t0 [<- _]].
    unfold is_zero_tensor. simpl in *. apply Forall_forall.
    intros x Hx. specialize (E x Hx).
    apply in_map_iff in Hx as [y [<- _]]. apply Hlaw, E.
  - apply zeros_like_zero.
Qed.

(** C8 (as amended).  On an instance with the default client weight
    function whose counter is 0 (as after [__init__]), for initial
    weights of the model's structure and a dtype in which a finite
    [x - x] is zero (integers, IEEE floats), [__call__] on the empty
    dataset returns an output with [num_examples = 0], weight [0.0] and
    an all-zero [weights_delta] of the shape of the trainable weights. *)
Theorem empty_dataset_output {D : DType} {Batch LocalVars Metrics : Type}
  (model : TrainableModel D Batch LocalVars Metrics) (mv : ModelVars D LocalVars)
  (iw : ModelWeights D) (st : ClientVars D LocalVars) :
  sub_self_law D ->
  nest_shape (trainable (weights (model_vars st))) = nest_shape (trainable iw) ->
  nest_shape (non_trainable (weights (model_vars st))) =
  nest_shape (non_trainable iw) ->
  _num_examples st = 0%Z ->
  exists (out : ClientOutput D Metrics) st',
    __call__ (fst (__init__ model mv None)) [] iw st = (Ok out, st')
    /\ num_examples (stats out) = 0%Z
    /\ weight out = F32.zero
    /\ nest_shape (weights_delta out) = nest_shape (trainable iw)
    /\ Forall is_zero_tensor (flatten (weights_delta out)).
Proof.
  intros Hlaw Htr Hnt H0.
  set (st1 := {| model_vars := set_weights iw (model_vars st);
                 _num_examples := _num_examples st |}).
  assert (Ha : assign_weights iw st = (Ok tt, st1))
    by (apply assign_weights_Ok; auto).
  assert (Hl : local_update (fst (__init__ model mv None)) [] iw st
               = (Ok (F32.zero, map_structure self_difference (trainable iw),
                      aggregated_outputs model (set_weights iw (model_vars st)),
                      F32.of_Z (_num_examples st)), st1)).
  { unfold local_update. unfold bind at 1. rewrite Ha.
    simpl dataset_reduce. unfold bind at 1. unfold ret at 1.
    unfold bind at 1. unfold get at 1. unfold bind at 1. unfold lift at 1.
    simpl trainable. rewrite subtract_self.
    unfold bind at 1. rewrite weight_fn_of_init. reflexivity. }
  eexists. exists st1. rewrite call_eq, Hl.
  split; [reflexivity |].
  unfold client_output. simpl _num_examples. rewrite H0.
  pose proof (guarded_self_difference_zero (trainable iw) Hlaw) as Hz.
  unfold zero_all_if_any_non_finite in *.
  destruct (forallb all_finite _); simpl in *.
  - repeat split; auto.
    unfold nest_shape. rewrite map_structure_map. reflexivity.
  - repeat split; auto.
    rewrite zeros_like_shape. unfold nest_shape.
    rewrite map_structure_map. reflexivity.
Qed.

Lemma empty_dataset_output_witness :
  let model := Scenario.toy_model Scenario.bump in
  let mv := Scenario.toy_vars Scenario.f_0 in
  let iw := Scenario.scalar_model (D := float32) (S754_infinity false) in
  exists (out : ClientOutput float32 unit) st',
    __call__ (fst (__init__ model mv None)) [] iw (snd (__init__ model mv None))
    = (Ok out, st')
    /\ num_examples (stats out) = 0%Z
    /\ weight out = F32.zero
    /\ nest_shape (weights_delta out) = nest_shape (trainable iw)
    /\ Forall is_zero_tensor (flatten (weights_delta out)).
Proof.
  cbv zeta.
  apply (empty_dataset_output (Scenario.toy_model Scenario.bump)
           (Scenario.toy_vars Scenario.f_0)
           (Scenario.scalar_model (D := float32) (S754_infinity false))
           (snd (__init__ (Scenario.toy_model Scenario.bump)
                   (Scenario.toy_vars Scenario.f_0) None))
           float32_sub_self);
    reflexivity.
Defined.

(** C8 as stated fails on an instance that was called before: after a
    call on one batch of 5 examples, a call on the empty dataset returns
    [num_examples = 5] (and the default weight [5.0]). *)
Lemma empty_dataset_after_a_call :
  ~ (forall (D : DType) (Batch LocalVars Metrics : Type)
            (model : TrainableModel D Batch LocalVars Metrics)
            (mv : ModelVars D LocalVars)
            (ds1 : list Batch) (iw1 iw2 : ModelWeights D)
            (st1 st2 : ClientVars D LocalVars) (out1 out2 : ClientOutput D Metrics),
        __call__ (fst (__init__ model mv None)) ds1 iw1 (snd (__init__ model mv None))
        = (Ok out1, st1) ->
        __call__ (fst (__init__ model mv None)) [] iw2 st1 = (Ok out2, st2) ->
        num_examples (stats out2) = 0%Z
        /\ weight out2 = F32.zero
        /\ Forall is_zero_tensor (flatten (weights_delta out2))).
Proof.
  intros H.
  pose (model := Scenario.toy_model (D := float32) (fun w => w)).
  pose (mv := Scenario.toy_vars Scenario.f_0).
  pose (iw := Scenario.scalar_model Scenario.f_1).
  destruct (__call__ (fst (__init__ model mv None)) [5%nat] iw
              (snd (__init__ model mv None)))
    as [[out1 | e] st1] eqn:E1; [| vm_compute in E1; discriminate E1].
  destruct (__call__ (fst (__init__ model mv None)) [] iw st1)
    as [[out2 | e] st2] eqn:E2;
    [| vm_compute in E1; inversion E1; subst; vm_compute in E2; discriminate E2].
  specialize (H _ _ _ _ model mv [5%nat] iw iw st1 st2 out1 out2 E1 E2).
  destruct H as (H & _).
  vm_compute in E1. inversion E1; subst; clear E1.
  vm_compute in E2. inversion E2; subst; clear E2.
  vm_compute in H. discriminate H.
Qed.

(** ** Concrete runs of the server update *)

Lemma server_update_copies_server_state_witness :
  let s := Scenario.with_accumulator Scenario.f_1 Scenario.f_0_5 in
  let d := Scenario.scalar_delta Scenario.f_1 in
  let mf := fun _ : unit => Scenario.scalar_model Scenario.f_7 in
  let opf := fun _ : unit => momentum Scenario.f_1 Scenario.f_1 in
  let r := Scenario.with_accumulator Scenario.f_1_5 Scenario.f_minus_0_5 in
  server_update_model s d mf opf = Ok r
  /\ exists st1 st2 st3,
      _create_optimizer_and_server_state (opf tt) (new_vars (mf tt) (opf tt))
      = (Ok (apply_delta (opf tt)), st1)
      /\ assign_server_vars s st1 = (Ok tt, st2)
      /\ model_weights st2 = model s
      /\ optimizer_variables st2 = optimizer_state s
      /\ apply_delta (opf tt) d st2 = (Ok tt, st3)
      /\ r = {| model := model_weights st3;
                optimizer_state := optimizer_variables st3 |}.
Proof.
  cbv zeta.
  assert (H : server_update_model
                (Scenario.with_accumulator Scenario.f_1 Scenario.f_0_5)
                (Scenario.scalar_delta Scenario.f_1)
                (fun _ : unit => Scenario.scalar_model Scenario.f_7)
                (fun _ : unit => momentum Scenario.f_1 Scenario.f_1)
              = Ok (Scenario.with_accumulator Scenario.f_1_5 Scenario.f_minus_0_5))
    by (vm_compute; reflexivity).
  split; [exact H |].
  destruct (server_update_copies_server_state _ _ _ _ H)
    as (st1 & st2 & st3 & H1 & H2 & H3 & H4 & H5 & H6 & _).
  exists st1, st2, st3. repeat split; assumption.
Defined.

Lemma structure_mismatch_fails_fast_witness :
  let d := Leaf (Scenario.scalar Scenario.f_1) in
  let s := Scenario.stateless Scenario.f_1 in
  same_structure d (trainable (model s)) = false
  /\ apply_delta (gradient_descent Scenario.f_1) d (rehydrated s)
     = (Err StructureMismatch, rehydrated s)
  /\ exists e,
      server_update_model s d (fun _ => Scenario.scalar_model Scenario.f_1)
        (fun _ => gradient_descent Scenario.f_1) = Err e.
Proof.
  cbv zeta. split; [reflexivity |]. split.
  - apply (proj1 (structure_mismatch_fails_fast
                    (Leaf (Scenario.scalar Scenario.f_1)))).
    reflexivity.
  - apply (proj2 (structure_mismatch_fails_fast
                    (Leaf (Scenario.scalar Scenario.f_1)))).
    reflexivity.
Defined.

Lemma server_update_independent_of_dry_run_witness :
  let s := Scenario.with_accumulator Scenario.f_1 Scenario.f_0_5 in
  let d := Scenario.scalar_delta Scenario.f_1 in
  let mf := fun _ : unit => Scenario.scalar_model Scenario.f_7 in
  let opf := fun _ : unit => momentum Scenario.f_1 Scenario.f_1 in
  let mf' := fun _ : unit => Scenario.scalar_model Scenario.f_3 in
  let opf' := fun _ : unit => Scenario.warm_momentum Scenario.f_1 Scenario.f_1 in
  let r := Scenario.with_accumulator Scenario.f_1_5 Scenario.f_minus_0_5 in
  server_update_model s d mf opf = Ok r
  /\ server_update_model s d mf' opf' = Ok r
  /\ server_init mf opf <> server_init mf' opf'
  /\ server_update_simple s d mf opf = Ok r
  /\ r = r.
Proof.
  cbv zeta.
  assert (H : server_update_model
                (Scenario.with_accumulator Scenario.f_1 Scenario.f_0_5)
                (Scenario.scalar_delta Scenario.f_1)
                (fun _ : unit => Scenario.scalar_model Scenario.f_7)
                (fun _ : unit => momentum Scenario.f_1 Scenario.f_1)
              = Ok (Scenario.with_accumulator Scenario.f_1_5 Scenario.f_minus_0_5))
    by (vm_compute; reflexivity).
  assert (H' : server_update_model
                 (Scenario.with_accumulator Scenario.f_1 Scenario.f_0_5)
                 (Scenario.scalar_delta Scenario.f_1)
                 (fun _ : unit => Scenario.scalar_model Scenario.f_3)
                 (fun _ : unit => Scenario.warm_momentum Scenario.f_1 Scenario.f_1)
               = Ok (Scenario.with_accumulator Scenario.f_1_5 Scenario.f_minus_0_5))
    by (vm_compute; reflexivity).
  split; [exact H |]. split; [exact H' |].
  split; [vm_compute; discriminate |].
  pose proof (server_update_independent_of_dry_run
                (Scenario.with_accumulator Scenario.f_1 Scenario.f_0_5)
                (Scenario.scalar_delta Scenario.f_1)
                (fun _ : unit => Scenario.scalar_model Scenario.f_7)
                (fun _ : unit => momentum Scenario.f_1 Scenario.f_1)) as [Hiff Hind].
  split.
  - apply (proj1 (Hiff _) H).
  - apply (Hind (fun _ : unit => Scenario.scalar_model Scenario.f_3)
             (fun _ : unit => Scenario.warm_momentum Scenario.f_1 Scenario.f_1)
             _ _ eq_refl H H').
Defined.

(** * Further properties of the server computations *)

Ltac shapes_eq :=
  unfold state_shapes, constructed_shapes, constructed_vars in *; simpl in *;
  repeat match goal with
    | H : (_, _) = (_, _) |- _ => injection H as ? ?
    | |- _ /\ _ => split
    | |- (_, _) = (_, _) => f_equal
    end;
  first [reflexivity | congruence].

Section ServerShapes.
Context {D : DType}.
Implicit Types (st : ServerVars D) (s r : ServerState D)
  (d : nest (Tensor D)) (opt : Optimizer D)
  (mf : unit -> ModelWeights D) (opf : unit -> Optimizer D).

(** A successful [apply_delta] keeps the shapes of all variables. *)
Lemma apply_delta_shapes opt d st st' :
  optimizer_created st = true ->
  apply_delta opt d st = (Ok tt, st') ->
  nest_shape (trainable (model_weights st')) =
  nest_shape (trainable (model_weights st))
  /\ non_trainable (model_weights st') = non_trainable (model_weights st)
  /\ map (@shape D) (optimizer_variables st') =
     map (@shape D) (optimizer_variables st)
  /\ optimizer_created st' = true.
Proof.
  intros Hc. rewrite apply_delta_eq.
  destruct (same_structure d (trainable (model_weights st))); [| discriminate].
  intros H.
  apply apply_gradients_Ok in H as (nv & no & _ & Hs & _ & Hnt & Hc' & Hov & Hsh).
  unfold variables_for in Hsh. rewrite Hc in Hsh.
  repeat split; congruence.
Qed.

Lemma server_step_eq opt s d :
  server_step opt s d =
  match apply_delta opt d (rehydrated s) with
  | (Ok _, st3) =>
      Ok {| model := model_weights st3;
            optimizer_state := optimizer_variables st3 |}
  | (Err e, _) => Err e
  end.
Proof.
  unfold server_step. unfold bind at 1.
  destruct (apply_delta opt d (rehydrated s)) as [[[] | e] st3]; reflexivity.
Qed.

(** The dry run of the factories succeeds and the state has the shapes
    of the variables they construct: then [server_update_model] is one
    [server_step] on the state. *)
Lemma update_is_step s d mf opf f st1 :
  _create_optimizer_and_server_state (opf tt) (new_vars (mf tt) (opf tt))
  = (Ok f, st1) ->
  state_shapes s = constructed_shapes (mf tt) (opf tt) ->
  server_update_model s d mf opf = server_step (opf tt) s d.
Proof.
  intros Hd Hs. rewrite server_update_model_eq, server_step_eq, Hd.
  apply dry_run_shapes in Hd as (_ & Hc & Htr & Hnt & Hov).
  assert (Ha : assign_server_vars s st1 = (Ok tt, rehydrated s)).
  { apply assign_server_vars_Ok. rewrite Hc, Hnt. shapes_eq. }
  rewrite Ha. reflexivity.
Qed.
End ServerShapes.

(** X1.  Whenever [server_update_model] returns a state, that state has
    the nesting and per-leaf shapes of the input state, for the trainable
    weights, the non-trainable weights and the optimizer state, and its
    non-trainable weights are those of the input state. *)
Theorem server_update_keeps_shapes {D : DType}
  (s : ServerState D) (d : nest (Tensor D))
  (mf : unit -> ModelWeights D) (opf : unit -> Optimizer D) (r : ServerState D) :
  server_update_model s d mf opf = Ok r ->
  state_shapes r = state_shapes s
  /\ non_trainable (model r) = non_trainable (model s).
Proof.
  intros H.
  apply server_update_model_Ok in H as (st1 & st3 & Hd & Ha & Happ & ->).
  apply dry_run_shapes in Hd as (_ & Hc & Htr & Hnt & Hov).
  apply assign_server_vars_Ok in Ha as (H1 & H2 & H3 & _).
  apply apply_delta_shapes in Happ as (A1 & A2 & A3 & _); [| reflexivity].
  rewrite Hnt in H2. shapes_eq.
Qed.

Lemma server_update_keeps_shapes_witness :
  let s := Scenario.with_accumulator Scenario.f_1 Scenario.f_0_5 in
  let d := Scenario.scalar_delta Scenario.f_1 in
  let mf := fun _ : unit => Scenario.scalar_model Scenario.f_7 in
  let opf := fun _ : unit => momentum Scenario.f_1 Scenario.f_1 in
  let r := Scenario.with_accumulator Scenario.f_1_5 Scenario.f_minus_0_5 in
  server_update_model s d mf opf = Ok r
  /\ state_shapes r = state_shapes s
  /\ non_trainable (model r) = non_trainable (model s).
Proof.
  cbv zeta.
  assert (H : server_update_model
                (Scenario.with_accumulator Scenario.f_1 Scenario.f_0_5)
                (Scenario.scalar_delta Scenario.f_1)
                (fun _ : unit => Scenario.scalar_model Scenario.f_7)
                (fun _ : unit => momentum Scenario.f_1 Scenario.f_1)
              = Ok (Scenario.with_accumulator Scenario.f_1_5 Scenario.f_minus_0_5))
    by (vm_compute; reflexivity).
  split; [exact H |].
  exact (server_update_keeps_shapes _ _ _ _ H).
Defined.

(** X2.  Whenever [server_init] returns a state, it has the nesting and
    shapes of the variables the factories construct, its non-trainable
    weights are those [model_fn] made, and [server_update_model] with
    the same factories accepts it: for every delta the update is one
    application of the delta to the values of that state. *)
Theorem server_init_state_is_accepted {D : DType}
  (mf : unit -> ModelWeights D) (opf : unit -> Optimizer D) (s0 : ServerState D) :
  server_init mf opf = Ok s0 ->
  state_shapes s0 = constructed_shapes (mf tt) (opf tt)
  /\ non_trainable (model s0) = non_trainable (mf tt)
  /\ forall d, server_update_model s0 d mf opf = server_step (opf tt) s0 d.
Proof.
  rewrite server_init_eq.
  destruct (_create_optimizer_and_server_state _ _) as [[f | e] st1] eqn:Hd;
    [| discriminate].
  intros H. inversion H; subst; clear H.
  pose proof (dry_run_shapes _ _ Hd) as (_ & Hc & Htr & Hnt & Hov).
  assert (Hs : state_shapes
                 {| model := model_weights st1;
                    optimizer_state := optimizer_variables st1 |}
               = constructed_shapes (mf tt) (opf tt)).
  { shapes_eq. }
  split; [exact Hs |]. split; [exact Hnt |].
  intros d. exact (@update_is_step D _ d mf opf _ _ Hd Hs).
Qed.

Lemma server_init_state_is_accepted_witness :
  let mf := fun _ : unit => Scenario.scalar_model Scenario.f_7 in
  let opf := fun _ : unit => momentum Scenario.f_1 Scenario.f_1 in
  let s0 := Scenario.with_accumulator Scenario.f_7 Scenario.f_0 in
  server_init mf opf = Ok s0
  /\ state_shapes s0 = constructed_shapes (mf tt) (opf tt)
  /\ non_trainable (model s0) = non_trainable (mf tt)
  /\ forall d, server_update_model s0 d mf opf = server_step (opf tt) s0 d.
Proof.
  cbv zeta.
  assert (H : server_init (fun _ : unit => Scenario.scalar_model Scenario.f_7)
                (fun _ : unit => momentum Scenario.f_1 Scenario.f_1)
              = Ok (Scenario.with_accumulator Scenario.f_7 Scenario.f_0))
    by (vm_compute; reflexivity).
  split; [exact H |].
  exact (server_init_state_is_accepted _ _ H).
Defined.

(** X3.  The state a round returns can be fed to the next round: if
    [server_update_model] returns [r], then with the same factories the
    update of [r], for every delta, is one application of the delta to
    the values of [r]; nothing else of the previous call is needed. *)
Theorem server_update_result_is_accepted {D : DType}
  (s : ServerState D) (d : nest (Tensor D))
  (mf : unit -> ModelWeights D) (opf : unit -> Optimizer D) (r : ServerState D) :
  server_update_model s d mf opf = Ok r ->
  server_step (opf tt) s d = Ok r
  /\ forall d', server_update_model r d' mf opf = server_step (opf tt) r d'.
Proof.
  intros H.
  pose proof (server_update_model_Ok _ _ _ _ H) as (st1 & st3 & Hd & Ha & Happ & Hr).
  apply assign_server_vars_Ok in Ha as (H1 & H2 & H3 & _).
  pose proof (dry_run_shapes _ _ Hd) as (_ & Hc & Htr & Hnt & Hov).
  assert (Hs : state_shapes s = constructed_shapes (mf tt) (opf tt)).
  { rewrite Hnt in H2. shapes_eq. }
  split.
  - rewrite <- (@update_is_step D s d mf opf _ _ Hd Hs). exact H.
  - intros d'. apply (@update_is_step D r d' mf opf _ _ Hd).
    apply apply_delta_shapes in Happ as (A1 & A2 & A3 & _); [| reflexivity].
    rewrite <- Hs, Hr. clear Hs. shapes_eq.
Qed.

Lemma server_update_result_is_accepted_witness :
  let s := Scenario.with_accumulator Scenario.f_1 Scenario.f_0_5 in
  let d := Scenario.scalar_delta Scenario.f_1 in
  let mf := fun _ : unit => Scenario.scalar_model Scenario.f_7 in
  let opf := fun _ : unit => momentum Scenario.f_1 Scenario.f_1 in
  let r := Scenario.with_accumulator Scenario.f_1_5 Scenario.f_minus_0_5 in
  server_update_model s d mf opf = Ok r
  /\ server_step (opf tt) s d = Ok r
  /\ forall d', server_update_model r d' mf opf = server_step (opf tt) r d'.
Proof.
  cbv zeta.
  assert (H : server_update_model
                (Scenario.with_accumulator Scenario.f_1 Scenario.f_0_5)
                (Scenario.scalar_delta Scenario.f_1)
                (fun _ : unit => Scenario.scalar_model Scenario.f_7)
                (fun _ : unit => momentum Scenario.f_1 Scenario.f_1)
              = Ok (Scenario.with_accumulator Scenario.f_1_5 Scenario.f_minus_0_5))
    by (vm_compute; reflexivity).
  split; [exact H |].
  exact (server_update_result_is_accepted _ _ _ _ H).
Defined.

(** X4.  A server state whose nesting or shapes differ from those of the
    variables the factories construct (another model, or an optimizer
    with other variables than the one that made the state) is refused:
    [server_update_model] raises and returns no state. *)
Theorem server_update_refuses_other_shapes {D : DType}
  (s : ServerState D) (d : nest (Tensor D))
  (mf : unit -> ModelWeights D) (opf : unit -> Optimizer D) :
  state_shapes s <> constructed_shapes (mf tt) (opf tt) ->
  exists e, server_update_model s d mf opf = Err e.
Proof.
  intros Hne.
  destruct (server_update_model s d mf opf) as [r | e] eqn:E; [| eauto].
  exfalso. apply Hne.
  pose proof (server_update_model_Ok _ _ _ _ E) as (st1 & st3 & Hd & Ha & _ & _).
  apply assign_server_vars_Ok in Ha as (H1 & H2 & H3 & _).
  apply dry_run_shapes in Hd as (_ & _ & Htr & Hnt & Hov).
  rewrite Hnt in H2. shapes_eq.
Qed.

Lemma server_update_refuses_other_shapes_witness :
  let s := Scenario.stateless Scenario.f_1 in
  let d := Scenario.scalar_delta Scenario.f_1 in
  let mf := fun _ : unit => Scenario.scalar_model Scenario.f_1 in
  let opf := fun _ : unit => momentum Scenario.f_1 Scenario.f_1 in
  state_shapes s <> constructed_shapes (mf tt) (opf tt)
  /\ exists e, server_update_model s d mf opf = Err e.
Proof.
  cbv zeta.
  assert (H : state_shapes (Scenario.stateless Scenario.f_1)
              <> constructed_shapes (Scenario.scalar_model Scenario.f_1)
                   (momentum Scenario.f_1 Scenario.f_1))
    by (vm_compute; discriminate).
  split; [exact H |].
  exact (@server_update_refuses_other_shapes float32
           (Scenario.stateless Scenario.f_1)
           (Scenario.scalar_delta Scenario.f_1)
           (fun _ : unit => Scenario.scalar_model Scenario.f_1)
           (fun _ : unit => momentum Scenario.f_1 Scenario.f_1) H).
Defined.

(** ** Gradient descent in exact arithmetic *)

Section ExactGradientDescent.
Context {D : DType}.
Hypothesis Rth :
  ring_theory (dzero D) (done D) (dadd D) (dmul D) (dsub D) (dopp D) eq.
Add Ring DRing' : Rth.

Implicit Types (lr : D) (w x : Tensor D).







End ExactGradientDescent.





(** ** Shapes of leafwise operations *)

Section LeafwiseShapes.
Context {D : DType}.
Variable f : Tensor D -> Tensor D -> result (Tensor D).

(** [f] returns only on operands of one shape, with a result of that
    shape. *)
Hypothesis f_shapes :
  forall a b r, f a b = Ok r -> shape r = shape a /\ shape b = shape a.

Lemma map_leaves2_shapes (a : nest (Tensor D)) :
  forall b r : nest (Tensor D),
    map_leaves2 f a b = Ok r ->
    nest_shape r = nest_shape a /\ nest_shape b = nest_shape a.
Proof.
  unfold nest_shape.
  induction a as [x | l IH] using nest_induction; intros [y | lb] r H;
    simpl in H; try discriminate.
  - apply rbind_Ok in H as [t [Ht H]]. inversion H; subst; clear H.
    apply f_shapes in Ht as [H1 H2]. simpl. split; congruence.
  - apply rbind_Ok in H as [rs [Hrs H]]. inversion H; subst; clear H.
    simpl.
    enough (map (map_structure (@shape D)) rs = map (map_structure (@shape D)) l
            /\ map (map_structure (@shape D)) lb = map (map_structure (@shape D)) l)
      as [-> ->] by auto.
    revert lb rs Hrs.
    induction IH as [| n l Hn _ IHl]; intros [| b lb] rs H; simpl in H;
      try discriminate.
    + inversion H. auto.
    + apply rbind_Ok in H as [t [Ht H]]. apply rbind_Ok in H as [ts [Hts H]].
      inversion H; subst; clear H.
      apply Hn in Ht as [H1 H2]. apply IHl in Hts as [H3 H4].
      simpl. split; congruence.
Qed.

Lemma map_structure2_shapes (a b r : nest (Tensor D)) :
  map_structure2 f a b = Ok r ->
  nest_shape r = nest_shape a /\ nest_shape b = nest_shape a.
Proof.
  unfold map_structure2. destruct (same_structure a b); [| discriminate].
  apply map_leaves2_shapes.
Qed.
End LeafwiseShapes.

Lemma elementwise_shapes {D : DType} (f : D -> D -> D) (a b r : Tensor D) :
  elementwise f a b = Ok r -> shape r = shape a /\ shape b = shape a.
Proof.
  unfold elementwise. destruct (shape_eqb (shape a) (shape b)) eqn:E;
    [| discriminate].
  apply shape_eqb_true in E. intros H. inversion H. simpl. auto.
Qed.


(** ** When gradient descent accepts a delta *)

Section GradientDescentReturns.
Context {D : DType}.
Implicit Types (lr : D) (d v : nest (Tensor D)) (st : ServerVars D)
  (s : ServerState D) (mf : unit -> ModelWeights D)
  (opf : unit -> Optimizer D).






End GradientDescentReturns.


(** * Further properties of the client computation *)

Section ClientFacts.
Context {D : DType} {Batch LocalVars Metrics : Type}.
Implicit Types (self : ClientFedAvg D Batch LocalVars Metrics)
  (model : TrainableModel D Batch LocalVars Metrics)
  (st : ClientVars D LocalVars) (mv : ModelVars D LocalVars)
  (iw : ModelWeights D) (ds : list Batch) (out : ClientOutput D Metrics).

Lemma client_output_delta_shape (dummy : F32.t) (wd : nest (Tensor D))
  (agg : Metrics) (w : F32.t) (n : Z) :
  nest_shape (weights_delta (client_output (dummy, wd, agg, w) n))
  = nest_shape wd.
Proof.
  unfold client_output, zero_all_if_any_non_finite.
  destruct (forallb all_finite (flatten wd)); simpl;
    [reflexivity | apply zeros_like_shape].
Qed.

Lemma client_output_num_examples (dummy : F32.t) (wd : nest (Tensor D))
  (agg : Metrics) (w : F32.t) (n : Z) :
  num_examples (stats (client_output (dummy, wd, agg, w) n)) = n.
Proof.
  unfold client_output. destruct (zero_all_if_any_non_finite wd). reflexivity.
Qed.

(** A call that returns: [local_update] returned, and the output is
    made of its results. *)
Lemma call_Ok self ds iw st out st' :
  __call__ self ds iw st = (Ok out, st') ->
  exists dummy wd agg w,
    local_update self ds iw st = (Ok (dummy, wd, agg, w), st')
    /\ out = client_output (dummy, wd, agg, w) (_num_examples st').
Proof.
  rewrite call_eq.
  destruct (local_update self ds iw st) as [[[[[dummy wd] agg] w] | e] s];
    intros H; inversion H; subst. eauto 10.
Qed.

(** The call is the assignment of the initial weights followed by a
    computation on the store the assignment leaves. *)
Lemma call_after_assign self ds iw st1 st2 s :
  assign_weights iw st1 = (Ok tt, s) ->
  assign_weights iw st2 = (Ok tt, s) ->
  __call__ self ds iw st1 = __call__ self ds iw st2.
Proof.
  intros H1 H2. unfold __call__, local_update, bind. rewrite H1, H2. reflexivity.
Qed.

Lemma call_Ok_assign self ds iw st out st' :
  __call__ self ds iw st = (Ok out, st') ->
  exists s, assign_weights iw st = (Ok tt, s).
Proof.
  unfold __call__, local_update, bind.
  destruct (assign_weights iw st) as [[[] | e] s]; [eauto | discriminate].
Qed.

Lemma assign_weights_Err iw st e s :
  assign_weights iw st = (Err e, s) -> s = st.
Proof.
  unfold assign_weights. unfold_monad.
  destruct (map_structure2 tf_assign (trainable _) _);
    [| intros H; inversion H; reflexivity].
  destruct (map_structure2 tf_assign (non_trainable _) _);
    [discriminate | intros H; inversion H; reflexivity].
Qed.

Lemma call_same_result self ds iw st1 st2 out st' :
  variables self st1 = variables self st2 ->
  local_variables (model_vars st1) = local_variables (model_vars st2) ->
  nest_shape (trainable (weights (model_vars st1)))
  = nest_shape (trainable (weights (model_vars st2))) ->
  nest_shape (non_trainable (weights (model_vars st1)))
  = nest_shape (non_trainable (weights (model_vars st2))) ->
  __call__ self ds iw st1 = (Ok out, st') ->
  __call__ self ds iw st2 = (Ok out, st').
Proof.
  intros Hv Hl Htr Hnt H.
  destruct (call_Ok_assign _ _ _ _ H) as [s Hs].
  enough (Hs2 : assign_weights iw st2 = (Ok tt, s))
    by (rewrite <- (@call_after_assign self ds iw st1 st2 s Hs Hs2); exact H).
  apply assign_weights_Ok in Hs as (H1 & H2 & ->).
  apply assign_weights_Ok. unfold variables in Hv. injection Hv as Hn.
  unfold set_weights. rewrite Hl, Hn. repeat split; congruence.
Qed.

Lemma train_all_app model ds1 ds2 mv :
  train_all model (ds1 ++ ds2) mv = train_all model ds2 (train_all model ds1 mv).
Proof. unfold train_all. apply fold_left_app. Qed.

Lemma batch_sizes_app model ds1 ds2 :
  forall mv,
    batch_sizes model (ds1 ++ ds2) mv
    = batch_sizes model ds1 mv ++ batch_sizes model ds2 (train_all model ds1 mv).
Proof.
  induction ds1 as [| b ds1 IH]; intros mv; simpl; [reflexivity |].
  unfold train_all in *. simpl.
  destruct (train_on_batch model b mv) as [output mv']. simpl.
  rewrite IH. reflexivity.
Qed.

Lemma count_examples_app (l1 l2 : list nat) (n : Z) :
  count_examples (l1 ++ l2) n = count_examples l2 (count_examples l1 n).
Proof. unfold count_examples. apply fold_left_app. Qed.

(** A batch whose predictions have no leading dimension stops the
    reduction. *)
Lemma dataset_reduce_scalar_predictions self ds :
  forall (z : F32.t) st,
    In [] (prediction_shapes (_model self) ds (model_vars st)) ->
    exists st', dataset_reduce (reduce_fn self) ds z st
                = (Err IndexOutOfRange, st').
Proof.
  induction ds as [| b ds IH]; intros z st Hin; simpl in *; [contradiction |].
  unfold bind at 1. unfold reduce_fn at 1. unfold_monad.
  destruct (train_on_batch (_model self) b (model_vars st)) as [output mv'].
  simpl in *. unfold leading_dim.
  destruct (shape (predictions output)) as [| n sh]; [eauto |].
  destruct Hin as [Hin | Hin]; [discriminate |].
  simpl. apply IH. exact Hin.
Qed.

Lemma wrap_int32_range (z : Z) : int32_range (wrap_int32 z).
Proof.
  unfold int32_range, wrap_int32.
  pose proof (Z.mod_pos_bound (z + 2147483648) 4294967296). lia.
Qed.

Lemma wrap_int32_congruent (z : Z) :
  exists k : Z, wrap_int32 z = (z + 4294967296 * k)%Z.
Proof.
  unfold wrap_int32.
  exists (- ((z + 2147483648) / 4294967296))%Z.
  pose proof (Z.div_mod (z + 2147483648) 4294967296). lia.
Qed.

Lemma count_examples_wraps (sizes : list nat) :
  forall n : Z,
    int32_range n ->
    int32_range (count_examples sizes n)
    /\ exists k : Z,
        count_examples sizes n = (n + total sizes + 4294967296 * k)%Z.
Proof.
  unfold count_examples, total.
  induction sizes as [| m l IH]; intros n Hn; cbn [fold_left fold_right].
  - split; [exact Hn | exists 0%Z; lia].
  - destruct (IH (wrap_int32 (n + Z.of_nat m)) (wrap_int32_range _))
      as [Hr [k Hk]].
    split; [exact Hr |].
    destruct (wrap_int32_congruent (n + Z.of_nat m)) as [k' Hk'].
    exists (k + k')%Z. rewrite Hk, Hk'. lia.
Qed.
End ClientFacts.

(** X8.  Whenever [__call__] returns, the returned [weights_delta] has
    the nesting and per-leaf shapes of [initial_weights.trainable], and
    so have the model's trainable weights before and after the call;
    the model's non-trainable weights had the shapes of
    [initial_weights.non_trainable]. *)
Theorem client_delta_has_shapes_of_initial_weights
  {D : DType} {Batch LocalVars Metrics : Type}
  (model : TrainableModel D Batch LocalVars Metrics) (mv : ModelVars D LocalVars)
  (cwf : option (Metrics -> F32.t)) (ds : list Batch) (iw : ModelWeights D)
  (st st' : ClientVars D LocalVars) (out : ClientOutput D Metrics) :
  __call__ (fst (__init__ model mv cwf)) ds iw st = (Ok out, st') ->
  nest_shape (weights_delta out) = nest_shape (trainable iw)
  /\ nest_shape (trainable (weights (model_vars st'))) = nest_shape (trainable iw)
  /\ nest_shape (trainable (weights (model_vars st))) = nest_shape (trainable iw)
  /\ nest_shape (non_trainable (weights (model_vars st)))
     = nest_shape (non_trainable iw).
Proof.
  intros H. apply call_Ok in H as (dummy & wd & agg & w & H & ->).
  apply local_update_Ok in H as (Htr & Hnt & _ & _ & _ & Hsub & _).
  apply (map_structure2_shapes _ (elementwise_shapes (dsub D))) in Hsub
    as [H1 H2].
  rewrite client_output_delta_shape.
  repeat split; congruence.
Qed.

Lemma client_delta_has_shapes_of_initial_weights_witness :
  let model := Scenario.toy_model Scenario.bump in
  let iw := Scenario.scalar_model Scenario.f_1 in
  let st := snd (__init__ model (Scenario.toy_vars Scenario.f_0) None) in
  let st' := {| model_vars := Scenario.toy_vars Scenario.f_2;
                _num_examples := 4 |} in
  let out := {| weights_delta := Scenario.scalar_delta Scenario.f_1;
                weight := Scenario.f_4;
                aggregated_model_outputs := tt;
                stats := {| num_examples := 4;
                            has_non_finite_delta := 0;
                            workaround := F32.zero |} |} in
  __call__ (fst (__init__ model (Scenario.toy_vars Scenario.f_0) None))
    [4%nat] iw st = (Ok out, st')
  /\ nest_shape (weights_delta out) = nest_shape (trainable iw).
Proof.
  cbv zeta.
  assert (H : __call__
                (fst (__init__ (Scenario.toy_model Scenario.bump)
                        (Scenario.toy_vars Scenario.f_0) None))
                [4%nat] (Scenario.scalar_model Scenario.f_1)
                (snd (__init__ (Scenario.toy_model Scenario.bump)
                        (Scenario.toy_vars Scenario.f_0) None))
              = (Ok {| weights_delta := Scenario.scalar_delta Scenario.f_1;
                       weight := Scenario.f_4;
                       aggregated_model_outputs := tt;
                       stats := {| num_examples := 4;
                                   has_non_finite_delta := 0;
                                   workaround := F32.zero |} |},
                 {| model_vars := Scenario.toy_vars Scenario.f_2;
                    _num_examples := 4 |}))
    by (vm_compute; reflexivity).
  split; [exact H |].
  exact (proj1 (client_delta_has_shapes_of_initial_weights _ _ _ _ _ _ H)).
Defined.

(** X9.  The result of [__call__] does not depend on the values the
    model's weights held before the call.  On two stores that agree on
    the instance's [variables], on the model's local variables and on
    the shapes of the model's weights, a call with the same dataset and
    initial weights returns on both or on neither, with the same output
    and the same final store. *)
Theorem client_call_ignores_previous_weights
  {D : DType} {Batch LocalVars Metrics : Type}
  (self : ClientFedAvg D Batch LocalVars Metrics)
  (ds : list Batch) (iw : ModelWeights D) (st1 st2 : ClientVars D LocalVars) :
  variables self st1 = variables self st2 ->
  local_variables (model_vars st1) = local_variables (model_vars st2) ->
  nest_shape (trainable (weights (model_vars st1)))
  = nest_shape (trainable (weights (model_vars st2))) ->
  nest_shape (non_trainable (weights (model_vars st1)))
  = nest_shape (non_trainable (weights (model_vars st2))) ->
  forall out st',
    __call__ self ds iw st1 = (Ok out, st')
    <-> __call__ self ds iw st2 = (Ok out, st').
Proof.
  intros Hv Hl Htr Hnt out st'. split.
  - apply call_same_result; assumption.
  - apply call_same_result; symmetry; assumption.
Qed.

Lemma client_call_ignores_previous_weights_witness :
  let self := fst (__init__ (Scenario.toy_model Scenario.bump)
                     (Scenario.toy_vars Scenario.f_0) None) in
  let iw := Scenario.scalar_model Scenario.f_1 in
  let st1 := {| model_vars := Scenario.toy_vars Scenario.f_0;
                _num_examples := 3 |} in
  let st2 := {| model_vars := Scenario.toy_vars Scenario.f_7;
                _num_examples := 3 |} in
  let st' := {| model_vars := Scenario.toy_vars Scenario.f_2;
                _num_examples := 7 |} in
  let out := {| weights_delta := Scenario.scalar_delta Scenario.f_1;
                weight := Scenario.f_7;
                aggregated_model_outputs := tt;
                stats := {| num_examples := 7;
                            has_non_finite_delta := 0;
                            workaround := F32.zero |} |} in
  __call__ self [4%nat] iw st1 = (Ok out, st')
  /\ __call__ self [4%nat] iw st2 = (Ok out, st').
Proof.
  cbv zeta.
  assert (H : __call__
                (fst (__init__ (Scenario.toy_model Scenario.bump)
                        (Scenario.toy_vars Scenario.f_0) None))
                [4%nat] (Scenario.scalar_model Scenario.f_1)
                {| model_vars := Scenario.toy_vars Scenario.f_0;
                   _num_examples := 3 |}
              = (Ok {| weights_delta := Scenario.scalar_delta Scenario.f_1;
                       weight := Scenario.f_7;
                       aggregated_model_outputs := tt;
                       stats := {| num_examples := 7;
                                   has_non_finite_delta := 0;
                                   workaround := F32.zero |} |},
                 {| model_vars := Scenario.toy_vars Scenario.f_2;
                    _num_examples := 7 |}))
    by (vm_compute; reflexivity).
  split; [exact H |].
  refine (proj1 (@client_call_ignores_previous_weights float32 nat unit unit
                   _ [4%nat] (Scenario.scalar_model Scenario.f_1)
                   {| model_vars := Scenario.toy_vars Scenario.f_0;
                      _num_examples := 3 |}
                   {| model_vars := Scenario.toy_vars Scenario.f_7;
                      _num_examples := 3 |}
                   _ _ _ _ _ _) H); reflexivity.
Defined.

(** X10.  Initial weights whose nesting or shapes differ from those of
    the model's weights are refused: [__call__] raises on the
    assignment, before any batch is trained on, and the model's
    variables and the example counter are as they were. *)
Theorem client_call_refuses_other_shapes
  {D : DType} {Batch LocalVars Metrics : Type}
  (self : ClientFedAvg D Batch LocalVars Metrics)
  (ds : list Batch) (iw : ModelWeights D) (st : ClientVars D LocalVars) :
  nest_shape (trainable (weights (model_vars st))) <> nest_shape (trainable iw)
  \/ nest_shape (non_trainable (weights (model_vars st)))
     <> nest_shape (non_trainable iw) ->
  exists e, __call__ self ds iw st = (Err e, st).
Proof.
  intros Hne.
  destruct (assign_weights iw st) as [[[] | e] s] eqn:E.
  - apply assign_weights_Ok in E as (H1 & H2 & _). tauto.
  - pose proof (assign_weights_Err _ _ E) as ->.
    exists e. unfold __call__, local_update, bind. rewrite E. reflexivity.
Qed.

Lemma client_call_refuses_other_shapes_witness :
  let self := fst (__init__ (Scenario.toy_model Scenario.bump)
                     (Scenario.toy_vars Scenario.f_0) None) in
  let iw := {| trainable := Seq [Leaf (Scenario.scalar Scenario.f_1);
                                 Leaf (Scenario.scalar Scenario.f_1)];
               non_trainable := Seq [] |} in
  let st := {| model_vars := Scenario.toy_vars Scenario.f_0;
               _num_examples := 3 |} in
  (nest_shape (trainable (weights (model_vars st))) <> nest_shape (trainable iw)
   \/ nest_shape (non_trainable (weights (model_vars st)))
      <> nest_shape (non_trainable iw))
  /\ exists e, __call__ self [4%nat] iw st = (Err e, st).
Proof.
  cbv zeta.
  assert (H : nest_shape
                (trainable (weights (model_vars
                   {| model_vars := Scenario.toy_vars Scenario.f_0;
                      _num_examples := 3 |})))
              <> nest_shape
                   (trainable
                      {| trainable := Seq [Leaf (Scenario.scalar Scenario.f_1);
                                           Leaf (Scenario.scalar Scenario.f_1)];
                         non_trainable := Seq [] |})
              \/ nest_shape
                   (non_trainable (weights (model_vars
                      {| model_vars := Scenario.toy_vars Scenario.f_0;
                         _num_examples := 3 |})))
                 <> nest_shape
                      (non_trainable
                         {| trainable := Seq [Leaf (Scenario.scalar Scenario.f_1);
                                              Leaf (Scenario.scalar Scenario.f_1)];
                            non_trainable := Seq [] |}))
    by (left; vm_compute; discriminate).
  split; [exact H |].
  exact (@client_call_refuses_other_shapes float32 nat unit unit
           (fst (__init__ (Scenario.toy_model Scenario.bump)
                   (Scenario.toy_vars Scenario.f_0) None))
           [4%nat] _ _ H).
Defined.

(** X11.  Training on a concatenated dataset continues the training on
    its first part.  If [__call__] returns on [ds1] and on [ds1 ++ ds2],
    from the same store and initial weights, then the model's variables
    after the longer call are those obtained by training on [ds2] from
    the variables after the shorter call, and the reported number of
    examples is the shorter call's, increased by the batch sizes of
    [ds2]. *)
Theorem client_call_on_concatenated_datasets
  {D : DType} {Batch LocalVars Metrics : Type}
  (model : TrainableModel D Batch LocalVars Metrics) (mv : ModelVars D LocalVars)
  (cwf : option (Metrics -> F32.t)) (ds1 ds2 : list Batch) (iw : ModelWeights D)
  (st st1 st' : ClientVars D LocalVars) (out1 out : ClientOutput D Metrics) :
  __call__ (fst (__init__ model mv cwf)) ds1 iw st = (Ok out1, st1) ->
  __call__ (fst (__init__ model mv cwf)) (ds1 ++ ds2) iw st = (Ok out, st') ->
  model_vars st' = train_all model ds2 (model_vars st1)
  /\ num_examples (stats out)
     = count_examples (batch_sizes model ds2 (model_vars st1))
         (num_examples (stats out1)).
Proof.
  intros H1 H.
  apply call_Ok in H1 as (dummy1 & wd1 & agg1 & w1 & H1 & ->).
  apply call_Ok in H as (dummy & wd & agg & w & H & ->).
  apply local_update_Ok in H1 as (_ & _ & Hmv1 & Hn1 & _).
  apply local_update_Ok in H as (_ & _ & Hmv & Hn & _).
  rewrite !client_output_num_examples.
  rewrite train_all_app in Hmv.
  rewrite batch_sizes_app, count_examples_app in Hn.
  split; congruence.
Qed.

Lemma client_call_on_concatenated_datasets_witness :
  let model := Scenario.toy_model Scenario.bump in
  let self := fst (__init__ model (Scenario.toy_vars Scenario.f_0) None) in
  let iw := Scenario.scalar_model Scenario.f_1 in
  let st := snd (__init__ model (Scenario.toy_vars Scenario.f_0) None) in
  let st1 := {| model_vars := Scenario.toy_vars Scenario.f_2;
                _num_examples := 4 |} in
  let out1 := {| weights_delta := Scenario.scalar_delta Scenario.f_1;
                 weight := Scenario.f_4;
                 aggregated_model_outputs := tt;
                 stats := {| num_examples := 4;
                             has_non_finite_delta := 0;
                             workaround := F32.zero |} |} in
  let st' := {| model_vars := Scenario.toy_vars Scenario.f_3;
                _num_examples := 7 |} in
  let out := {| weights_delta := Scenario.scalar_delta Scenario.f_2;
                weight := Scenario.f_7;
                aggregated_model_outputs := tt;
                stats := {| num_examples := 7;
                            has_non_finite_delta := 0;
                            workaround := F32.zero |} |} in
  __call__ self [4%nat] iw st = (Ok out1, st1)
  /\ __call__ self ([4%nat] ++ [3%nat]) iw st = (Ok out, st')
  /\ model_vars st' = train_all model [3%nat] (model_vars st1)
  /\ num_examples (stats out)
     = count_examples (batch_sizes model [3%nat] (model_vars st1))
         (num_examples (stats out1)).
Proof.
  cbv zeta.
  assert (H1 : __call__
                 (fst (__init__ (Scenario.toy_model Scenario.bump)
                         (Scenario.toy_vars Scenario.f_0) None))
                 [4%nat] (Scenario.scalar_model Scenario.f_1)
                 (snd (__init__ (Scenario.toy_model Scenario.bump)
                         (Scenario.toy_vars Scenario.f_0) None))
               = (Ok {| weights_delta := Scenario.scalar_delta Scenario.f_1;
                        weight := Scenario.f_4;
                        aggregated_model_outputs := tt;
                        stats := {| num_examples := 4;
                                    has_non_finite_delta := 0;
                                    workaround := F32.zero |} |},
                  {| model_vars := Scenario.toy_vars Scenario.f_2;
                     _num_examples := 4 |}))
    by (vm_compute; reflexivity).
  assert (H : __call__
                (fst (__init__ (Scenario.toy_model Scenario.bump)
                        (Scenario.toy_vars Scenario.f_0) None))
                ([4%nat] ++ [3%nat]) (Scenario.scalar_model Scenario.f_1)
                (snd (__init__ (Scenario.toy_model Scenario.bump)
                        (Scenario.toy_vars Scenario.f_0) None))
              = (Ok {| weights_delta := Scenario.scalar_delta Scenario.f_2;
                       weight := Scenario.f_7;
                       aggregated_model_outputs := tt;
                       stats := {| num_examples := 7;
                                   has_non_finite_delta := 0;
                                   workaround := F32.zero |} |},
                 {| model_vars := Scenario.toy_vars Scenario.f_3;
                    _num_examples := 7 |}))
    by (vm_compute; reflexivity).
  split; [exact H1 |]. split; [exact H |].
  exact (client_call_on_concatenated_datasets _ _ _ _ _ _ _ H1 H).
Defined.

(** X12.  A batch whose predictions have no leading dimension makes the
    call fail: with initial weights of the model's shapes, if training
    on the batches in order from the assigned initial weights meets
    predictions of shape [[]], [__call__] raises on
    [tf.shape(output.predictions)[0]] and returns no output. *)
Theorem scalar_predictions_make_call_fail
  {D : DType} {Batch LocalVars Metrics : Type}
  (model : TrainableModel D Batch LocalVars Metrics) (mv : ModelVars D LocalVars)
  (cwf : option (Metrics -> F32.t)) (ds : list Batch) (iw : ModelWeights D)
  (st : ClientVars D LocalVars) :
  nest_shape (trainable (weights (model_vars st))) = nest_shape (trainable iw) ->
  nest_shape (non_trainable (weights (model_vars st)))
  = nest_shape (non_trainable iw) ->
  In [] (prediction_shapes model ds (set_weights iw (model_vars st))) ->
  exists st',
    __call__ (fst (__init__ model mv cwf)) ds iw st = (Err IndexOutOfRange, st').
Proof.
  intros Htr Hnt Hin.
  assert (Ha : assign_weights iw st
               = (Ok tt, {| model_vars := set_weights iw (model_vars st);
                            _num_examples := _num_examples st |}))
    by (apply assign_weights_Ok; auto).
  destruct (dataset_reduce_scalar_predictions
              (fst (__init__ model mv cwf)) ds F32.zero
              {| model_vars := set_weights iw (model_vars st);
                 _num_examples := _num_examples st |} Hin) as [st' Hr].
  exists st'. unfold __call__, local_update.
  unfold bind at 1. unfold bind at 1. rewrite Ha.
  unfold bind at 1. rewrite Hr. reflexivity.
Qed.

Lemma scalar_predictions_make_call_fail_witness :
  let model := scalar_output_model (D := float32) in
  let iw := Scenario.scalar_model Scenario.f_1 in
  let st := snd (__init__ model (Scenario.toy_vars Scenario.f_0) None) in
  In [] (prediction_shapes model [4%nat] (set_weights iw (model_vars st)))
  /\ exists st',
      __call__ (fst (__init__ model (Scenario.toy_vars Scenario.f_0) None))
        [4%nat] iw st = (Err IndexOutOfRange, st').
Proof.
  cbv zeta.
  assert (H : In []
                (prediction_shapes (scalar_output_model (D := float32)) [4%nat]
                   (set_weights (Scenario.scalar_model Scenario.f_1)
                      (model_vars
                         (snd (__init__ (scalar_output_model (D := float32))
                                 (Scenario.toy_vars Scenario.f_0) None))))))
    by (simpl; left; reflexivity).
  split; [exact H |].
  refine (@scalar_predictions_make_call_fail float32 nat unit unit
            (scalar_output_model (D := float32))
            (Scenario.toy_vars Scenario.f_0) None [4%nat]
            (Scenario.scalar_model Scenario.f_1) _ _ _ H); reflexivity.
Defined.

(** X13.  The example counter is a 32-bit integer that wraps around.
    Whenever [__call__] returns, from a counter in the [tf.int32] range,
    the reported [num_examples] is in that range and differs from the
    previous counter plus the sum of the batch sizes by a multiple of
    [2^32]; it is the value the instance's [variables] hold after the
    call. *)
Theorem num_examples_wraps_around
  {D : DType} {Batch LocalVars Metrics : Type}
  (model : TrainableModel D Batch LocalVars Metrics) (mv : ModelVars D LocalVars)
  (cwf : option (Metrics -> F32.t)) (ds : list Batch) (iw : ModelWeights D)
  (st st' : ClientVars D LocalVars) (out : ClientOutput D Metrics) :
  int32_range (_num_examples st) ->
  __call__ (fst (__init__ model mv cwf)) ds iw st = (Ok out, st') ->
  int32_range (num_examples (stats out))
  /\ (exists k : Z,
        num_examples (stats out)
        = (_num_examples st
           + total (batch_sizes model ds (set_weights iw (model_vars st)))
           + 4294967296 * k)%Z)
  /\ variables (fst (__init__ model mv cwf)) st' = [num_examples (stats out)].
Proof.
  intros Hr H.
  apply call_Ok in H as (dummy & wd & agg & w & H & ->).
  apply local_update_Ok in H as (_ & _ & _ & Hn & _).
  rewrite client_output_num_examples. unfold variables. rewrite Hn.
  destruct (count_examples_wraps
              (batch_sizes model ds (set_weights iw (model_vars st))) Hr)
    as [H1 H2].
  auto.
Qed.

Lemma num_examples_wraps_around_witness :
  let model := Scenario.toy_model Scenario.bump in
  let iw := Scenario.scalar_model Scenario.f_1 in
  let st := {| model_vars := Scenario.toy_vars Scenario.f_0;
               _num_examples := 2147483647 |} in
  let st' := {| model_vars := Scenario.toy_vars Scenario.f_2;
                _num_examples := -2147483648 |} in
  let out := {| weights_delta := Scenario.scalar_delta Scenario.f_1;
                weight := F32.of_Z (-2147483648);
                aggregated_model_outputs := tt;
                stats := {| num_examples := -2147483648;
                            has_non_finite_delta := 0;
                            workaround := F32.zero |} |} in
  int32_range (_num_examples st)
  /\ __call__ (fst (__init__ model (Scenario.toy_vars Scenario.f_0) None))
       [1%nat] iw st = (Ok out, st')
  /\ int32_range (num_examples (stats out)).
Proof.
  cbv zeta.
  assert (Hr : int32_range
                 (_num_examples
                    {| model_vars := Scenario.toy_vars Scenario.f_0;
                       _num_examples := 2147483647 |}))
    by (unfold int32_range; simpl; lia).
  assert (H : __call__
                (fst (__init__ (Scenario.toy_model Scenario.bump)
                        (Scenario.toy_vars Scenario.f_0) None))
                [1%nat] (Scenario.scalar_model Scenario.f_1)
                {| model_vars := Scenario.toy_vars Scenario.f_0;
                   _num_examples := 2147483647 |}
              = (Ok {| weights_delta := Scenario.scalar_delta Scenario.f_1;
                       weight := F32.of_Z (-2147483648);
                       aggregated_model_outputs := tt;
                       stats := {| num_examples := -2147483648;
                                   has_non_finite_delta := 0;
                                   workaround := F32.zero |} |},
                 {| model_vars := Scenario.toy_vars Scenario.f_2;
                    _num_examples := -2147483648 |}))
    by (vm_compute; reflexivity).
  split; [exact Hr |]. split; [exact H |].
  exact (proj1 (@num_examples_wraps_around float32 nat unit unit
                  _ _ _ _ _ _ _ _ Hr H)).
Defined.


